(** * PDF date replacer: the GUI batch worker and the CLI single-file tool

    A shallow embedding of [program_10/main.py] (class
    [PDFDateChangerThread]) and of [src-tauri/pdf_date_replacer.py]
    (functions [replace_date_in_pdf] and [main]), and the properties of
    the date replacement procedure.

    Python strings are sequences of code points; the document library
    (PyMuPDF), the file system, the console and the Qt signals are a
    [world] that the procedures read and update.  Library calls that can
    fail raise an exception, as in the source. *)

From Stdlib Require Import Ascii String.
From Stdlib Require Floats.SpecFloat.
From stdpp Require Import base option list gmap.

Local Open Scope N_scope.

(** ** Strings *)

(** A Python [str]: a list of Unicode code points. *)
Abbreviation char := N (only parsing).
Abbreviation str := (list N) (only parsing).

(** The code points of an ASCII literal of the source. *)
Fixpoint codes (s : string) : str :=
  match s with
  | EmptyString => []
  | String a s' => N_of_ascii a :: codes s'
  end.

(** [s.startswith(p)] *)
Fixpoint startswith (p s : str) : bool :=
  match p, s with
  | [], _ => true
  | _ :: _, [] => false
  | a :: p', b :: s' => if decide (a = b) then startswith p' s' else false
  end.

(** [s.endswith(p)] *)
Definition endswith (p s : str) : bool := startswith (reverse p) (reverse s).

(** [k in s]: [k] occurs in [s] as a contiguous substring. *)
Fixpoint contains (k s : str) : bool :=
  startswith k s ||
  match s with
  | [] => false
  | _ :: s' => contains k s'
  end.

(** [s[:-4]]: all but the last four code points (empty when [s] is shorter). *)
Definition drop_last4 (s : str) : str := take (length s - 4)%nat s.

(** [pdf_path[:-4] + '_new.pdf'], the output path of both programs. *)
Definition new_path_of (pdf_path : str) : str :=
  drop_last4 pdf_path ++ codes "_new.pdf".

(** ** The runtime

    Functions of the Python runtime and of its libraries that the two
    programs call and do not define.  Every theorem holds for any choice
    of them; [Concrete.python] below fixes one for running the procedures on
    ASCII inputs. *)
Inductive exn_kind := UnicodeEncodeError | OSError | LibraryError.

Class Runtime := {
  (** [\d] in an [re] pattern over [str]: a Unicode decimal digit *)
  isdecimal : char -> bool;
  (** [str.lower] *)
  lower : str -> str;
  (** [os.path.join] and [os.path.basename] *)
  path_join : str -> str -> str;
  basename : str -> str;
  (** page coordinates (floats) and [y + 5] on them *)
  coord : Type;
  add_int : coord -> Z -> coord;
  (** [str(e)] of the exception a failing call raises about a path or a
      printed line *)
  strerror : exn_kind -> str -> str;
}.

(** ** The percentage of [run]

    [int((idx + 1) / total * 100)] at line 40 is arithmetic of Python
    floats, IEEE 754 binary64 with rounding to nearest, ties to even.
    The operations are those of the Standard Library's [SpecFloat]. *)

(** A Python [int] as the operand of a float operation.  The mantissa is
    the integer itself: the division and the product below round their
    exact result once, as [int / int] and [float * int] of Python do
    (for an [int] of more than 53 bits too). *)
Definition float_of_int (n : Z) : SpecFloat.spec_float :=
  match n with
  | Z0 => SpecFloat.S754_zero false
  | Zpos p => SpecFloat.S754_finite false p 0
  | Zneg p => SpecFloat.S754_finite true p 0
  end.

(** [int(x)] for a finite float [x]: the fraction is cut off. *)
Definition int_of_float (x : SpecFloat.spec_float) : Z :=
  match x with
  | SpecFloat.S754_finite s m e =>
      let v := if (0 <=? e)%Z then Z.shiftl (Zpos m) e
               else Z.shiftr (Zpos m) (- e) in
      if s then (- v)%Z else v
  | _ => 0%Z
  end.

(** [int(k / total * 100)].  For [total = 0] Python raises
    [ZeroDivisionError]; [run] returns at line 36 before it evaluates the
    expression with no file, and the value is 0 here. *)
Definition percent (k total : nat) : Z :=
  int_of_float
    (SpecFloat.SFmul 53 1024
       (SpecFloat.SFdiv 53 1024 (float_of_int (Z.of_nat k))
          (float_of_int (Z.of_nat total)))
       (float_of_int 100)).

(** The percentage in exact arithmetic, rounded down. *)
Definition exact_percent (k total : nat) : Z :=
  (Z.of_nat k * 100 / Z.of_nat total)%Z.

(** ** The date pattern and [re.finditer] *)

Inductive char_class := Digit | Separator.

(** [r'(\d{2}[./]\d{2}[./]\d{4})'] as repeated character classes. *)
Definition date_pattern : list (char_class * nat) :=
  [(Digit, 2%nat); (Separator, 1%nat); (Digit, 2%nat); (Separator, 1%nat);
   (Digit, 4%nat)].

(** A match object: [m.start()] and [m.group(0)]. *)
Record re_match := { m_start : nat; m_group : str }.

Section Regex.
Context `{rt : Runtime}.

Definition in_class (k : char_class) (c : char) : bool :=
  match k with
  | Digit => isdecimal c
  | Separator => bool_decide (c = 46) || bool_decide (c = 47)
  end.

(** The classes a match goes through, one per character. *)
Definition expand (pat : list (char_class * nat)) : list char_class :=
  flat_map (fun kn => replicate (snd kn) (fst kn)) pat.

(** The pattern matches a prefix of [s]. *)
Fixpoint match_classes (ks : list char_class) (s : str) : bool :=
  match ks, s with
  | [], _ => true
  | _ :: _, [] => false
  | k :: ks', c :: s' => in_class k c && match_classes ks' s'
  end.

Definition match_here (s : str) : bool := match_classes (expand date_pattern) s.

(** The width of every match of the pattern. *)
Definition width : nat := length (expand date_pattern).

(** The scan of [re.finditer]: at each position the pattern is tried;
    after a match at [pos] the scan resumes at [pos + width], which
    [skip] counts down. *)
Fixpoint scan (skip pos : nat) (s : str) : list re_match :=
  match s with
  | [] => []
  | _ :: s' =>
      match skip with
      | S k => scan k (S pos) s'
      | O =>
          if match_here s
          then {| m_start := pos; m_group := take width s |}
                 :: scan (pred width) (S pos) s'
          else scan 0 (S pos) s'
      end
  end.

(** [list(re.finditer(date_pattern, text))] *)
Definition finditer (text : str) : list re_match := scan 0 0 text.

(** The pattern matches the substring of [text] at offset [p]. *)
Definition occurs_at (text : str) (p : nat) : Prop :=
  match_here (drop p text) = true.

(** No two occurrences of the pattern in [text] share a character. *)
Definition disjoint_occurrences (text : str) : Prop :=
  forall p q, occurs_at text p -> occurs_at text q -> (p < q)%nat ->
              (p + width <= q)%nat.
End Regex.

(** ** Documents, files and the world *)

Section World.
Context `{rt : Runtime}.

(** [fitz.Point] and [fitz.Rect]; [tl] and [br] are the corners of a
    rectangle. *)
Record Point := { px : coord; py : coord }.
Record Rect := { x0 : coord; y0 : coord; x1 : coord; y1 : coord }.
Definition tl (r : Rect) : Point := {| px := x0 r; py := y0 r |}.
Definition br (r : Rect) : Point := {| px := x1 r; py := y1 r |}.

(** The calls that change a page. *)
Inductive edit :=
| AddRedactAnnot (r : Rect) (fill : Z * Z * Z)
| ApplyRedactions
| InsertText (p : Point) (text : str) (fontsize : Z) (color : Z * Z * Z).

(** A page: what [get_text()] and [search_for(needle)] return on the
    page as loaded, and the edits made to it since, oldest first. *)
Record page := {
  page_text : str;
  page_search : str -> list Rect;
  page_edits : list edit;
}.

(** A file is a document the library can open, or anything else. *)
Inductive file := Document (pages : list page) | Opaque.

(** A directory: its name, the names of its files and its subdirectories. *)
#[warnings="-register-all"]
Inductive dirtree := Dir (name : str) (names : list str) (subdirs : list dirtree).

(** An exception: its class and [str(e)]. *)
Record exn := { e_kind : exn_kind; e_str : str }.

(** A [fitz.Document] object. *)
Record docobj := { d_name : str; d_pages : list page; d_closed : bool }.

(** The signals of the worker thread. *)
Inductive signal := Progress (n : Z) | Status (s : str) | Finished.

Record world := {
  (** the files, by path *)
  files : gmap (list N) file;
  (** the directories [os.walk] can list, by path *)
  dirs : gmap (list N) dirtree;
  (** paths [doc.save] cannot write and [os.remove] cannot delete *)
  unwritable : str -> bool;
  undeletable : str -> bool;
  (** the code points above ASCII that the encoding of stdout has *)
  console : char -> bool;
  (** the document objects created so far; a handle is an index *)
  docs : list docobj;
  (** the lines printed and the signals emitted, oldest first *)
  stdout : list str;
  signals : list signal;
}.

Definition set_files (f : gmap (list N) file) (w : world) : world :=
  {| files := f; dirs := dirs w; unwritable := unwritable w;
     undeletable := undeletable w; console := console w; docs := docs w;
     stdout := stdout w; signals := signals w |}.
Definition set_docs (d : list docobj) (w : world) : world :=
  {| files := files w; dirs := dirs w; unwritable := unwritable w;
     undeletable := undeletable w; console := console w; docs := d;
     stdout := stdout w; signals := signals w |}.
Definition set_stdout (o : list str) (w : world) : world :=
  {| files := files w; dirs := dirs w; unwritable := unwritable w;
     undeletable := undeletable w; console := console w; docs := docs w;
     stdout := o; signals := signals w |}.
Definition set_signals (g : list signal) (w : world) : world :=
  {| files := files w; dirs := dirs w; unwritable := unwritable w;
     undeletable := undeletable w; console := console w; docs := docs w;
     stdout := stdout w; signals := g |}.

(** *** Computations: a result or a raised exception, and the next world *)

Inductive res (A : Type) := Ret (a : A) | Raise (e : exn).
Global Arguments Ret {A} a.
Global Arguments Raise {A} e.

Definition M (A : Type) : Type := world -> res A * world.

Definition ret {A} (a : A) : M A := fun w => (Ret a, w).
Definition bind {A B} (m : M A) (k : A -> M B) : M B :=
  fun w => match m w with
           | (Ret a, w') => k a w'
           | (Raise e, w') => (Raise e, w')
           end.
Definition raise {A} (k : exn_kind) (about : str) : M A :=
  fun w => (Raise {| e_kind := k; e_str := strerror k about |}, w).
Definition reraise {A} (e : exn) : M A := fun w => (Raise e, w).

(** [try: body  except Exception as e: handler e] *)
Definition try_except {A} (body : M A) (handler : exn -> M A) : M A :=
  fun w => match body w with
           | (Ret a, w') => (Ret a, w')
           | (Raise e, w') => handler e w'
           end.

(** [try: body  except UnicodeEncodeError: handler] *)
Definition try_except_unicode {A} (body : M A) (handler : M A) : M A :=
  try_except body
    (fun e => match e_kind e with
              | UnicodeEncodeError => handler
              | _ => reraise e
              end).
End World.

Notation "x <- m ;; k" := (bind m (fun x => k))
  (at level 100, m at next level, right associativity).
Notation "m ;;; k" := (bind m (fun _ => k))
  (at level 100, right associativity).

(** ** The library calls *)

Section Calls.
Context `{rt : Runtime}.

(** A page object: the handle of its document and its index. *)
Definition page_ref : Type := nat * nat.

(** [fitz.open(path)] *)
Definition fitz_open (path : str) : M nat :=
  fun w =>
    match files w !! path with
    | Some (Document pages) =>
        (Ret (length (docs w)),
         set_docs (docs w ++ [{| d_name := path; d_pages := pages;
                                 d_closed := false |}]) w)
    | _ => raise LibraryError path w
    end.

(** [doc[-1]] *)
Definition last_page (h : nat) : M page_ref :=
  fun w =>
    match docs w !! h with
    | Some d =>
        match d_pages d with
        | [] => raise LibraryError (d_name d) w
        | _ :: _ => (Ret (h, pred (length (d_pages d))), w)
        end
    | None => raise LibraryError [] w
    end.

Definition the_page (pg : page_ref) (w : world) : option page :=
  d ← docs w !! pg.1; d_pages d !! pg.2.

(** [page.get_text()] *)
Definition get_text (pg : page_ref) : M str :=
  fun w =>
    match the_page pg w with
    | Some p => (Ret (page_text p), w)
    | None => raise LibraryError [] w
    end.

(** [page.search_for(needle)] *)
Definition search_for (pg : page_ref) (needle : str) : M (list Rect) :=
  fun w =>
    match the_page pg w with
    | Some p => (Ret (page_search p needle), w)
    | None => raise LibraryError [] w
    end.

Definition add_edit (e : edit) (p : page) : page :=
  {| page_text := page_text p; page_search := page_search p;
     page_edits := page_edits p ++ [e] |}.

Definition edit_doc (i : nat) (e : edit) (d : docobj) : docobj :=
  {| d_name := d_name d; d_pages := alter (add_edit e) i (d_pages d);
     d_closed := d_closed d |}.

(** The three calls that change the page: [page.add_redact_annot],
    [page.apply_redactions] and [page.insert_text]. *)
Definition edit_page (pg : page_ref) (e : edit) : M unit :=
  fun w =>
    match the_page pg w with
    | Some _ => (Ret tt, set_docs (alter (edit_doc pg.2 e) pg.1 (docs w)) w)
    | None => raise LibraryError [] w
    end.

Definition add_redact_annot (pg : page_ref) (r : Rect) (fill : Z * Z * Z) : M unit :=
  edit_page pg (AddRedactAnnot r fill).
Definition apply_redactions (pg : page_ref) : M unit :=
  edit_page pg ApplyRedactions.
Definition insert_text (pg : page_ref) (p : Point) (text : str)
    (fontsize : Z) (color : Z * Z * Z) : M unit :=
  edit_page pg (InsertText p text fontsize color).

(** [doc.save(path)]: the library refuses to overwrite the file the
    document was opened from, and fails where the path cannot be written. *)
Definition save (h : nat) (path : str) : M unit :=
  fun w =>
    match docs w !! h with
    | Some d =>
        if bool_decide (d_name d = path) || unwritable w path
        then raise LibraryError path w
        else (Ret tt, set_files (<[path := Document (d_pages d)]> (files w)) w)
    | None => raise LibraryError path w
    end.

Definition close_doc (d : docobj) : docobj :=
  {| d_name := d_name d; d_pages := d_pages d; d_closed := true |}.

(** [doc.close()] *)
Definition close (h : nat) : M unit :=
  fun w => (Ret tt, set_docs (alter close_doc h (docs w)) w).

(** [os.path.exists(path)] *)
Definition os_path_exists (path : str) : M bool :=
  fun w => (Ret (bool_decide (is_Some (files w !! path))), w).

(** [os.remove(path)] *)
Definition os_remove (path : str) : M unit :=
  fun w =>
    match files w !! path with
    | Some _ =>
        if undeletable w path then raise OSError path w
        else (Ret tt, set_files (delete path (files w)) w)
    | None => raise OSError path w
    end.

(** stdout can encode a line: ASCII always, other code points as the
    console has them. *)
Definition printable (w : world) (line : str) : bool :=
  forallb (fun c => (c <? 128) || console w c) line.

(** [print(line)] *)
Definition print (line : str) : M unit :=
  fun w =>
    if printable w line
    then (Ret tt, set_stdout (stdout w ++ [line]) w)
    else raise UnicodeEncodeError line w.

(** [signal.emit(...)] *)
Definition emit (g : signal) : M unit :=
  fun w => (Ret tt, set_signals (signals w ++ [g]) w).
End Calls.

(** ** The GUI worker: [PDFDateChangerThread] of [program_10/main.py] *)

(** The fields [__init__] stores. *)
Record thread := {
  root_folder : str;
  new_date : str;
  keyword : str;
  delete_original : bool;
}.

Section Gui.
Context `{rt : Runtime}.

(** [process_pdf(self, pdf_path)] *)
Definition process_pdf (self : thread) (pdf_path : str) : M unit :=
  doc <- fitz_open pdf_path ;;
  page <- last_page doc ;;
  text <- get_text page ;;
  let matches := finditer text in
  (match last matches with
   | Some last_match =>
       let old_date := m_group last_match in
       rects <- search_for page old_date ;;
       match last rects with
       | Some rect =>
           add_redact_annot page rect (1, 1, 1)%Z ;;;
           apply_redactions page ;;;
           insert_text page (tl rect) (new_date self) 12 (0, 0, 0)%Z
       | None => ret tt
       end
   | None => ret tt
   end) ;;;
  let new_path := new_path_of pdf_path in
  save doc new_path ;;;
  close doc ;;;
  if delete_original self
  then try_except (os_remove pdf_path) (fun _ => ret tt)
  else ret tt.

(** The test of line 29: [file.lower().endswith('.pdf') and self.keyword in file]. *)
Definition wanted (self : thread) (file : str) : bool :=
  endswith (codes ".pdf") (lower file) && contains (keyword self) file.

Definition dir_name (t : dirtree) : str :=
  match t with Dir name _ _ => name end.

(** [os.walk(top)], top-down: a directory, then its subdirectories in
    the order they are listed. *)
Fixpoint walk (top : str) (t : dirtree) : list (str * list str * list str) :=
  match t with
  | Dir _ names subdirs =>
      (top, map dir_name subdirs, names)
        :: flat_map (fun d => walk (path_join top (dir_name d)) d) subdirs
  end.

Definition os_walk (top : str) : M (list (str * list str * list str)) :=
  fun w =>
    (Ret match dirs w !! top with
         | Some t => walk top t
         | None => []
         end, w).

(** Lines 26-30: the paths collected from the walk. *)
Definition collect (self : thread) (walked : list (str * list str * list str)) : list str :=
  flat_map (fun '(subdir, _, names) =>
              map (path_join subdir) (filter (fun f => wanted self f = true) names))
           walked.

(** The status texts. *)
Definition status_no_files : str :=
  [1060; 1072; 1081; 1083; 1099; 32; 1085; 1077; 32; 1085; 1072; 1081;
   1076; 1077; 1085; 1099; 33].
Definition status_processing : str :=
  [1054; 1073; 1088; 1072; 1073; 1086; 1090; 1082; 1072; 58; 32].
Definition status_done : str := [1043; 1086; 1090; 1086; 1074; 1086; 33].

(** The loop of lines 37-40 from index [idx] on. *)
Fixpoint process_all (self : thread) (total idx : nat) (pdf_files : list str) : M unit :=
  match pdf_files with
  | [] => ret tt
  | pdf_path :: rest =>
      emit (Status (status_processing ++ basename pdf_path)) ;;;
      process_pdf self pdf_path ;;;
      emit (Progress (percent (idx + 1) total)) ;;;
      process_all self total (S idx) rest
  end.

(** [run(self)] *)
Definition run (self : thread) : M unit :=
  walked <- os_walk (root_folder self) ;;
  let pdf_files := collect self walked in
  let total := length pdf_files in
  if bool_decide (total = 0%nat)
  then
    emit (Status status_no_files) ;;;
    emit (Progress 0) ;;;
    emit Finished
  else
    process_all self total 0 pdf_files ;;;
    emit (Status status_done) ;;;
    emit Finished.
End Gui.

(** ** The CLI tool: [src-tauri/pdf_date_replacer.py] *)

(** The parsed command line. *)
Record args := {
  a_pdf_path : str;
  a_old_date : str;
  a_new_date : str;
  a_delete_original : bool;
}.

Section Cli.
Context `{rt : Runtime}.

(** [replace_date_in_pdf(pdf_path, old_date, new_date)] *)
Definition replace_date_in_pdf (pdf_path old_date new_date : str) : M (bool * option str) :=
  try_except
    (doc <- fitz_open pdf_path ;;
     page <- last_page doc ;;
     text <- get_text page ;;
     let matches := finditer text in
     match last matches with
     | Some last_match =>
         let found_old_date := m_group last_match in
         if bool_decide (found_old_date = old_date)
         then
           rects <- search_for page old_date ;;
           match last rects with
           | Some rect =>
               add_redact_annot page rect (1, 1, 1)%Z ;;;
               apply_redactions page ;;;
               let new_position :=
                 {| px := px (tl rect); py := add_int (py (br rect)) 5 |} in
               insert_text page new_position new_date 12 (0, 0, 0)%Z ;;;
               let new_path := new_path_of pdf_path in
               save doc new_path ;;;
               close doc ;;;
               print (codes "SUCCESS: Date replaced " ++ old_date
                        ++ codes " -> " ++ new_date) ;;;
               try_except_unicode
                 (print (codes "SAVED: " ++ new_path))
                 (print (codes "SAVED: [file with unicode characters]")) ;;;
               ret (true, Some new_path)
           | None =>
               close doc ;;;
               print (codes "ERROR: Date " ++ old_date
                        ++ codes " not found visually on last page") ;;;
               ret (false, None)
           end
         else
           close doc ;;;
           print (codes "ERROR: Expected date " ++ old_date
                    ++ codes ", but found " ++ found_old_date) ;;;
           ret (false, None)
     | None =>
         close doc ;;;
         print (codes "ERROR: No dates found on last page") ;;;
         ret (false, None)
     end)
    (fun e =>
       try_except_unicode
         (print (codes "ERROR: " ++ e_str e))
         (print (codes "ERROR: [unicode encoding error]")) ;;;
       ret (false, None)).

(** [main()] from line 108 on, once [parser.parse_args()] has returned
    the arguments [a], up to its [sys.exit]: the value is the exit
    status.  (Where argparse itself ends the process, on a usage error
    or on [--help], nothing of the program below line 106 runs.) *)
Definition main_body (a : args) : M Z :=
  found <- os_path_exists (a_pdf_path a) ;;
  if negb found
  then
    print (codes "ERROR: PDF file not found: " ++ a_pdf_path a) ;;;
    ret 1%Z
  else
    r <- replace_date_in_pdf (a_pdf_path a) (a_old_date a) (a_new_date a) ;;
    if r.1
    then
      print (codes "SUCCESS: PDF processed successfully") ;;;
      (if a_delete_original a
       then
         try_except
           (os_remove (a_pdf_path a) ;;;
            print (codes "DELETED: Original file removed"))
           (fun e =>
              print (codes "WARNING: Could not delete original file: " ++ e_str e))
       else ret tt) ;;;
      ret 0%Z
    else
      print (codes "FAILED: Could not process PDF") ;;;
      ret 1%Z.

(** The process: an exception that nothing catches ends it with status 1. *)
Definition main (a : args) (w : world) : Z * world :=
  match main_body a w with
  | (Ret status, w') => (status, w')
  | (Raise _, w') => (1%Z, w')
  end.
End Cli.

(** ** A concrete runtime

    For running the procedures: ASCII digits and letters, POSIX paths,
    integer coordinates.  On ASCII inputs the first four are the
    functions of Python. *)
Module Concrete.

Definition ascii_isdecimal (c : char) : bool := (48 <=? c) && (c <=? 57).

Definition ascii_lower (s : str) : str :=
  map (fun c => if (65 <=? c) && (c <=? 90) then c + 32 else c) s.

(** [posixpath.join(a, b)] for a relative [b]. *)
Definition posix_join (a b : str) : str :=
  if bool_decide (a = []) || endswith [47] a then a ++ b else a ++ 47 :: b.

(** [posixpath.basename(p)]: what follows the last [/]. *)
Fixpoint after_slash (seen p : str) : str :=
  match p with
  | [] => seen
  | c :: p' =>
      if bool_decide (c = 47) then after_slash [] p'
      else after_slash (seen ++ [c]) p'
  end.
Definition posix_basename (p : str) : str := after_slash [] p.

(** The text of [OSError] and of the library's errors names the path in
    quotes; the text of [UnicodeEncodeError] is ASCII. *)
Definition describe (k : exn_kind) (about : str) : str :=
  match k with
  | UnicodeEncodeError => codes "codec can't encode characters"
  | OSError => codes "[Errno 13] Permission denied: '" ++ about ++ codes "'"
  | LibraryError => codes "cannot process '" ++ about ++ codes "'"
  end.

#[export] Instance python : Runtime := {|
  isdecimal := ascii_isdecimal;
  lower := ascii_lower;
  path_join := posix_join;
  basename := posix_basename;
  coord := Z;
  add_int := Z.add;
  strerror := describe;
|}.

(** A page whose text is [text] and where [needle] is drawn at [boxes]. *)
Definition page_of (text : str) (needle : str) (boxes : list Rect) : page :=
  {| page_text := text;
     page_search := fun s => if bool_decide (s = needle) then boxes else [];
     page_edits := [] |}.

(** A world with the given files and directories where every path can
    be written and deleted and stdout is ASCII only. *)
Definition world_of (fs : list (str * file)) (ds : list (str * dirtree)) : world :=
  {| files := list_to_map fs; dirs := list_to_map ds;
     unwritable := fun _ => false; undeletable := fun _ => false;
     console := fun _ => false; docs := []; stdout := []; signals := [] |}.

(** Two boxes on a page, and a document whose last page carries the text
    of the example of the specification, the last date drawn twice. *)
Definition box_a : Rect := {| x0 := 72; y0 := 100; x1 := 130; y1 := 112 |}%Z.
Definition box_b : Rect := {| x0 := 300; y0 := 700; x1 := 358; y1 := 712 |}%Z.

Definition decision_text : str :=
  codes "Basvuru tarihi: 01.03.2024, karar: 15.03.2024".
Definition decision_page : page :=
  page_of decision_text (codes "15.03.2024") [box_a; box_b].
Definition cover_page : page :=
  page_of (codes "31.12.1999") (codes "31.12.1999") [box_a].
Definition decision_world : world :=
  world_of [(codes "karar.pdf", Document [cover_page; decision_page])] [].

(** A document without a date on its only page. *)
Definition blank_page : page := page_of (codes "Tarih yok") [] [].
Definition blank_world : world :=
  world_of [(codes "bos.pdf", Document [blank_page])] [].

(** A worker of the GUI and command lines of the CLI tool. *)
Definition worker (delete : bool) : thread :=
  {| root_folder := codes "/belgeler"; new_date := codes "20.03.2024";
     keyword := codes "karar"; delete_original := delete |}.
Definition command (path old_date : string) (delete : bool) : args :=
  {| a_pdf_path := codes path; a_old_date := codes old_date;
     a_new_date := codes "20.03.2024"; a_delete_original := delete |}.

(** The world of the decision where the output path cannot be written. *)
Definition locked_world : world :=
  {| files := files decision_world; dirs := dirs decision_world;
     unwritable := fun p => bool_decide (p = codes "karar_new.pdf");
     undeletable := fun _ => false; console := fun _ => false;
     docs := []; stdout := []; signals := [] |}.

(** A file whose name starts with a capital I with a dot, which stdout
    cannot encode, and which cannot be deleted. *)
Definition dotted_path : str := 304 :: codes "DDIA.pdf".
Definition dotted_new_path : str := 304 :: codes "DDIA_new.pdf".
Definition dotted_world : world :=
  {| files := {[ dotted_path := Document [decision_page] ]}; dirs := ∅;
     unwritable := fun _ => false;
     undeletable := fun p => bool_decide (p = dotted_path);
     console := fun _ => false;
     docs := []; stdout := []; signals := [] |}.
Definition dotted_command : args :=
  {| a_pdf_path := dotted_path; a_old_date := codes "15.03.2024";
     a_new_date := codes "20.03.2024"; a_delete_original := true |}.

(** A folder with four files and a subfolder with one; three of the
    five names pass the test of the worker. *)
Definition folder : dirtree :=
  Dir (codes "belgeler")
    [codes "karar.pdf"; codes "notlar.txt"; codes "KARAR.PDF"; codes "karar2.PDF"]
    [Dir (codes "eski") [codes "karar_eski.pdf"] []].
Definition folder_world : world :=
  world_of
    [(codes "/belgeler/karar.pdf", Document [decision_page]);
     (codes "/belgeler/karar2.PDF", Document [blank_page]);
     (codes "/belgeler/eski/karar_eski.pdf", Document [cover_page; decision_page])]
    [(codes "/belgeler", folder)].
End Concrete.

(** ** Outcomes

    The worlds and pages that the procedures arrive at, named for the
    statements below. *)

Section Outcomes.
Context `{rt : Runtime}.

(** The world [w] after the document object [d] was created in it. *)
Definition cur (w : world) (d : docobj) : world := set_docs (docs w ++ [d]) w.

Definition doc_of (path : list N) (pages : list page) (closed : bool) : docobj :=
  {| d_name := path; d_pages := pages; d_closed := closed |}.

(** The world after [line] was printed. *)
Definition say (w : world) (line : str) : world :=
  set_stdout (stdout w ++ [line]) w.

(** The three edits of a replacement at the rectangle [r], with the new
    text at [anchor]. *)
Definition replacement (r : Rect) (anchor : Point) (new_text : str) : list edit :=
  [AddRedactAnnot r (1, 1, 1)%Z; ApplyRedactions;
   InsertText anchor new_text 12 (0, 0, 0)%Z].

Definition with_edits (es : list edit) (pg : page) : page :=
  foldl (fun p e => add_edit e p) pg es.

(** The rectangle the GUI worker edits on the page [pg], if any. *)
Definition gui_site (pg : page) : option Rect :=
  last_match ← last (finditer (page_text pg));
  last (page_search pg (m_group last_match)).

(** The edits of a replacement at [site], when there is one. *)
Definition edits_at (site : option Rect) (anchor : Rect -> Point)
    (new_text : str) : list edit :=
  match site with
  | Some rect => replacement rect (anchor rect) new_text
  | None => []
  end.

(** The page [pg] after a replacement at [site], when there is one. *)
Definition edited_at (site : option Rect) (anchor : Rect -> Point)
    (new_text : str) (pg : page) : page :=
  match site with
  | Some rect => with_edits (replacement rect (anchor rect) new_text) pg
  | None => pg
  end.

(** The page [pg] as the GUI worker leaves it. *)
Definition gui_page (self : thread) (pg : page) : page :=
  edited_at (gui_site pg) tl (new_date self) pg.

(** The world after the document [pages] was saved at [path]. *)
Definition saved (path : str) (pages : list page) (w : world) : world :=
  set_files (<[path := Document pages]> (files w)) w.

(** The world after the file at [path] was deleted. *)
Definition removed (path : str) (w : world) : world :=
  set_files (delete path (files w)) w.
(** What [process_pdf] arrives at in a world [w] where [pdf_path] is a
    document, [pages] being its pages after the edit. *)
Definition gui_outcome (w : world) (self : thread) (pdf_path : str)
    (pages : list page) : res unit * world :=
  if unwritable w (new_path_of pdf_path)
  then raise LibraryError (new_path_of pdf_path)
         (cur w (doc_of pdf_path pages false))
  else
    let w1 := saved (new_path_of pdf_path) pages
                (cur w (doc_of pdf_path pages true)) in
    (Ret tt,
     if delete_original self && negb (undeletable w pdf_path)
     then removed pdf_path w1 else w1).

(** The worker [self] without the delete flag. *)
Definition without_delete (self : thread) : thread :=
  {| root_folder := root_folder self; new_date := new_date self;
     keyword := keyword self; delete_original := false |}.

(** The document object that a run from [w] to [w'] created. *)
Definition created (w w' : world) : option docobj :=
  docs w' !! length (docs w).

(** The anchor of the CLI tool: [fitz.Point(rect.tl.x, rect.br.y + 5)]. *)
Definition cli_anchor (rect : Rect) : Point :=
  {| px := px (tl rect); py := add_int (py (br rect)) 5 |}.

(** The lines the CLI tool prints. *)
Definition line_no_dates : str := codes "ERROR: No dates found on last page".
Definition line_mismatch (old_date found_old_date : str) : str :=
  codes "ERROR: Expected date " ++ old_date ++ codes ", but found " ++ found_old_date.
Definition line_not_visual (old_date : str) : str :=
  codes "ERROR: Date " ++ old_date ++ codes " not found visually on last page".
Definition line_replaced (old_date new_date : str) : str :=
  codes "SUCCESS: Date replaced " ++ old_date ++ codes " -> " ++ new_date.
Definition line_saved (w : world) (new_path : str) : str :=
  if printable w (codes "SAVED: " ++ new_path)
  then codes "SAVED: " ++ new_path
  else codes "SAVED: [file with unicode characters]".
Definition line_error (w : world) (e : exn) : str :=
  if printable w (codes "ERROR: " ++ e_str e)
  then codes "ERROR: " ++ e_str e
  else codes "ERROR: [unicode encoding error]".
Definition line_warning (e : exn) : str :=
  codes "WARNING: Could not delete original file: " ++ e_str e.

Definition exn_of (k : exn_kind) (about : str) : exn :=
  {| e_kind := k; e_str := strerror k about |}.

(** The handler of lines 90-95 in the world [w]. *)
Definition failed (w : world) (e : exn) : res (bool * option str) * world :=
  (Ret (false, None), say w (line_error w e)).

(** A branch that prints [line] and returns failure, in the world [w]. *)
Definition refused (w : world) (line : str) : res (bool * option str) * world :=
  if printable w line
  then (Ret (false, None), say w line)
  else failed w (exn_of UnicodeEncodeError line).

(** The rectangle the CLI tool edits on the page [pg], if any. *)
Definition cli_site (pg : page) (old_date : str) : option Rect :=
  last_match ← last (finditer (page_text pg));
  if bool_decide (m_group last_match = old_date)
  then last (page_search pg old_date)
  else None.

(** What [replace_date_in_pdf] arrives at in a world [w] where
    [pdf_path] is a document with the pages [front] and a last page [pg]:
    first where the last date found is [old_date], then in general. *)
Definition cli_replace (w : world) (pdf_path old_date new_date : str)
    (front : list page) (pg : page) : res (bool * option str) * world :=
  match last (page_search pg old_date) with
  | None =>
      refused (cur w (doc_of pdf_path (front ++ [pg]) true))
        (line_not_visual old_date)
  | Some rect =>
      let pages :=
        front ++ [edited_at (Some rect) cli_anchor new_date pg] in
      let new_path := new_path_of pdf_path in
      if unwritable w new_path
      then failed (cur w (doc_of pdf_path pages false))
             (exn_of LibraryError new_path)
      else
        let w1 := saved new_path pages (cur w (doc_of pdf_path pages true)) in
        if printable w (line_replaced old_date new_date)
        then (Ret (true, Some new_path),
              say (say w1 (line_replaced old_date new_date))
                  (line_saved w new_path))
        else failed w1 (exn_of UnicodeEncodeError
                          (line_replaced old_date new_date))
  end.

Definition cli_outcome (w : world) (pdf_path old_date new_date : str)
    (front : list page) (pg : page) : res (bool * option str) * world :=
  let closed := cur w (doc_of pdf_path (front ++ [pg]) true) in
  match last (finditer (page_text pg)) with
  | None => refused closed line_no_dates
  | Some last_match =>
      if bool_decide (m_group last_match = old_date)
      then cli_replace w pdf_path old_date new_date front pg
      else refused closed (line_mismatch old_date (m_group last_match))
  end.
(** The last lines of [main]. *)
Definition line_processed : str := codes "SUCCESS: PDF processed successfully".
Definition line_deleted : str := codes "DELETED: Original file removed".
Definition line_failed : str := codes "FAILED: Could not process PDF".

(** Lines 120-125 in the world [w]: the deletion, its report, and the
    exit status that follows. *)
Definition delete_outcome (pdf_path : str) (w : world) : Z * world :=
  match os_remove pdf_path w with
  | (Ret _, w') => (0%Z, say w' line_deleted)
  | (Raise e, w') =>
      if printable w' (line_warning e)
      then (0%Z, say w' (line_warning e))
      else (1%Z, w')
  end.

(** What [main] arrives at once [replace_date_in_pdf] has returned [r]
    in the world [w]. *)
Definition main_outcome (a : args) (r : bool * option str) (w : world) : Z * world :=
  if r.1
  then
    if a_delete_original a
    then delete_outcome (a_pdf_path a) (say w line_processed)
    else (0%Z, say w line_processed)
  else (1%Z, say w line_failed).
(** The file [name] is in the directory [dir] of the tree [t] at [top]:
    in [t] itself or, through the subdirectories, below it. *)
Inductive listed : str -> dirtree -> str -> str -> Prop :=
| listed_here top name names subdirs f :
    f ∈ names -> listed top (Dir name names subdirs) top f
| listed_below top name names subdirs d dir f :
    d ∈ subdirs -> listed (path_join top (dir_name d)) d dir f ->
    listed top (Dir name names subdirs) dir f.

(** The signals of the loop of [run] over [pdf_files] from index [idx]. *)
Fixpoint batch_signals (total idx : nat) (pdf_files : list str) : list signal :=
  match pdf_files with
  | [] => []
  | pdf_path :: rest =>
      Status (status_processing ++ basename pdf_path)
        :: Progress (percent (idx + 1) total)
        :: batch_signals total (S idx) rest
  end.

(** A computation that emits no signal. *)
Definition silent {A} (m : M A) : Prop :=
  forall w, signals (m w).2 = signals w.

(** The document objects created from the world [w] to the world [w'],
    oldest first. *)
Definition opened (w w' : world) : list docobj :=
  drop (length (docs w)) (docs w').

(** The file [p] is apart from the file [p']: [process_pdf] on [p']
    reads and deletes [p'] and writes its output path, none of which is
    [p] or the output path of [p]. *)
Definition apart (p p' : str) : Prop :=
  p <> p' /\ p <> new_path_of p' /\
  new_path_of p <> p' /\ new_path_of p <> new_path_of p'.

(** The float percentage of [k] of [total] files is the exact one or
    one below it. *)
Definition percent_close (k total : nat) : bool :=
  let d := (exact_percent k total - percent k total)%Z in
  (0 <=? d)%Z && (d <=? 1)%Z.

(** The values given to the progress bar among the signals [gs]. *)
Definition progress_values (gs : list signal) : list Z :=
  omap (fun g => match g with Progress n => Some n | _ => None end) gs.
End Outcomes.

(** ** The main window: [MainWindow] of [program_10/main.py] *)

(** Functions of Qt and of Python that the window calls:
    [QDate.toString("dd.MM.yyyy")] and [str.strip]. *)
Class Toolkit := {
  qdate : Type;
  date_to_string : qdate -> str;
  strip : str -> str;
}.

(** The dialogs of [QMessageBox.warning] and [QMessageBox.information]. *)
Inductive message_box :=
| Warning (title text : str)
| Information (title text : str).

Section Window.
Context `{tk : Toolkit}.

(** The window: [self.folder], the texts and values of its widgets
    ([progress] is the value last given to the progress bar),
    [self.worker], and the dialogs shown so far, oldest first. *)
Record window := {
  folder : option str;
  label : str;
  keyword_input : str;
  date_input : qdate;
  delete_checkbox : bool;
  progress : Z;
  status : str;
  worker : option thread;
  boxes : list message_box;
}.

(** The texts of the window. *)
Definition text_select : str := codes "Select a folder with PDF files:".
Definition text_waiting : str := codes "Waiting...".
Definition text_default_keyword : str := [304; 68; 68; 304; 65].
Definition text_done_title : str := [1043; 1086; 1090; 1086; 1074; 1086].
Definition text_completed : str :=
  [1054; 1073; 1088; 1072; 1073; 1086; 1090; 1082; 1072; 32; 1079; 1072;
   1074; 1077; 1088; 1096; 1077; 1085; 1072; 33].

(** [__init__], on the day [today]. *)
Definition init (today : qdate) : window :=
  {| folder := None; label := text_select;
     keyword_input := text_default_keyword; date_input := today;
     delete_checkbox := false; progress := 0%Z; status := text_waiting;
     worker := None; boxes := [] |}.




(** [on_finished(self)] *)
Definition on_finished (self : window) : window :=
  {| folder := folder self; label := label self;
     keyword_input := keyword_input self; date_input := date_input self;
     delete_checkbox := delete_checkbox self; progress := progress self;
     status := status_done; worker := worker self;
     boxes := boxes self ++ [Information text_done_title text_completed] |}.

(** The slots connected at lines 158-160: a signal of the worker as it
    reaches the window.  The signals are the three the class declares at
    lines 14-16 and [run] emits. *)
Definition receive (self : window) (g : signal) : window :=
  match g with
  | Progress n =>
      {| folder := folder self; label := label self;
         keyword_input := keyword_input self; date_input := date_input self;
         delete_checkbox := delete_checkbox self; progress := n;
         status := status self; worker := worker self; boxes := boxes self |}
  | Status s =>
      {| folder := folder self; label := label self;
         keyword_input := keyword_input self; date_input := date_input self;
         delete_checkbox := delete_checkbox self; progress := progress self;
         status := s; worker := worker self; boxes := boxes self |}
  | Finished => on_finished self
  end.

(** The signals reach the window in the order they were emitted. *)
Definition deliver (self : window) (gs : list signal) : window :=
  foldl receive self gs.



End Window.

Section Sessions.
Context `{rt : Runtime}.

(** The signals emitted from the world [w] to the world [w']. *)
Definition emitted (w w' : world) : list signal :=
  drop (length (signals w)) (signals w').
End Sessions.

(** [str.strip] for ASCII blanks, and dates as they are written. *)
Module ConcreteForm.

Fixpoint lstrip (s : str) : str :=
  match s with
  | c :: s' =>
      if bool_decide (c = 32) || ((9 <=? c) && (c <=? 13)) then lstrip s' else s
  | [] => []
  end.

#[export] Instance qt : Toolkit := {|
  qdate := list N;
  date_to_string := fun d => d;
  strip := fun s => reverse (lstrip (reverse (lstrip s)));
|}.
End ConcreteForm.

(** More worlds for running the procedures. *)
Module Cases.
Import Concrete ConcreteForm.

(** The page of the decision where the last date is in the text and is
    not found on the page. *)
Definition unseen_page : page := page_of decision_text [] [].
Definition unseen_world : world :=
  world_of [(codes "karar.pdf", Document [unseen_page])] [].

(** A picture, which the library does not open as a document here. *)
Definition picture_world : world :=
  world_of [(codes "resim.pdf", Opaque)] [].

(** A command whose new date has a character stdout cannot encode. *)
Definition dotted_date_command : args :=
  {| a_pdf_path := codes "karar.pdf"; a_old_date := codes "15.03.2024";
     a_new_date := 304 :: codes "20.03.2024"; a_delete_original := false |}.

(** The folder of the worker with one more file, which the worker does
    not take. *)
Definition archive_world : world :=
  world_of
    [(codes "/belgeler/karar.pdf", Document [decision_page]);
     (codes "/belgeler/karar2.PDF", Document [blank_page]);
     (codes "/belgeler/eski/karar_eski.pdf", Document [cover_page; decision_page]);
     (codes "/belgeler/notlar.txt", Opaque)]
    [(codes "/belgeler", folder)].

(** A command whose old date is written in digits that stdout cannot
    encode. *)
Definition indic_date_command : args :=
  {| a_pdf_path := codes "karar.pdf";
     a_old_date := [1633; 1637] ++ codes ".03.2024";
     a_new_date := codes "20.03.2024"; a_delete_original := false |}.

(** A folder of fifty documents, [karar01.pdf] to [karar50.pdf]. *)
Definition two_digits (i : nat) : str :=
  [N.of_nat (48 + i / 10); N.of_nat (48 + i mod 10)].
Definition numbered (i : nat) : str :=
  codes "karar" ++ two_digits i ++ codes ".pdf".
Definition fifty : dirtree :=
  Dir (codes "belgeler") (map numbered (seq 1 50)) [].
Definition fifty_world : world :=
  world_of
    (map (fun i => (codes "/belgeler/" ++ numbered i, Document [blank_page]))
       (seq 1 50))
    [(codes "/belgeler", fifty)].

End Cases.

(** * Properties *)

(** ** The scan of the date pattern *)

Section RegexFacts.
Context `{rt : Runtime}.

Lemma width_10 : width = 10%nat.
Proof. reflexivity. Qed.

Lemma match_here_nonempty (s : str) : match_here s = true -> s <> [].
Proof. intros H ->. discriminate H. Qed.

(** A countdown of [k] positions is a jump of [k] positions. *)
Lemma scan_skip (k pos : nat) (s : str) :
  scan k pos s = scan 0 (pos + k) (drop k s).
Proof.
  revert pos s. induction k as [|k IH]; intros pos s.
  - by rewrite Nat.add_0_r, drop_0.
  - destruct s as [|c s]; [by rewrite drop_nil|].
    simpl. rewrite IH. f_equal. lia.
Qed.

(** The equations of the scan as [re.finditer] has them: a match at
    [pos] is followed by the matches from [pos + width] on, a failure by
    the matches from [pos + 1] on. *)
Lemma scan_equation (pos : nat) (s : str) :
  scan 0 pos s =
    if match_here s
    then {| m_start := pos; m_group := take width s |}
           :: scan 0 (pos + width) (drop width s)
    else match s with
         | [] => []
         | _ :: s' => scan 0 (S pos) s'
         end.
Proof.
  destruct s as [|c s]; [reflexivity|].
  cbn [scan]. destruct (match_here (c :: s)); [|reflexivity].
  rewrite scan_skip. do 2 f_equal.
  rewrite width_10. lia.
Qed.

(** Every match of the scan is an occurrence of the pattern at its
    offset, past the countdown, and its group is the text there. *)
Lemma scan_sound (skip pos : nat) (s : str) (m : re_match) :
  m ∈ scan skip pos s ->
  exists p, m_start m = (pos + p)%nat /\ (skip <= p)%nat /\
            occurs_at s p /\ m_group m = take width (drop p s).
Proof.
  revert skip pos. induction s as [|c s IH]; intros skip pos Hm.
  - by apply elem_of_nil in Hm.
  - destruct skip as [|k]; cbn [scan] in Hm.
    + destruct (match_here (c :: s)) eqn:Hc.
      * apply elem_of_cons in Hm as [-> | Hm].
        -- exists 0%nat. cbn. unfold occurs_at. rewrite drop_0.
           split_and!; [lia | lia | done | done].
        -- apply IH in Hm as (p & ? & ? & ? & ?).
           exists (S p). split_and!; [lia | lia | done | done].
      * apply IH in Hm as (p & ? & ? & ? & ?).
        exists (S p). split_and!; [lia | lia | done | done].
    + apply IH in Hm as (p & ? & ? & ? & ?).
      exists (S p). split_and!; [lia | lia | done | done].
Qed.

(** The matches come in the order of the text and do not overlap. *)
Lemma scan_increasing (skip pos : nat) (s : str) (i j : nat) (mi mj : re_match) :
  scan skip pos s !! i = Some mi -> scan skip pos s !! j = Some mj ->
  (i < j)%nat -> (m_start mi + width <= m_start mj)%nat.
Proof.
  revert skip pos i j. induction s as [|c s IH]; intros skip pos i j Hi Hj Hlt.
  - done.
  - destruct skip as [|k]; cbn [scan] in Hi, Hj; [|by eauto].
    destruct (match_here (c :: s)); [|by eauto].
    destruct j as [|j]; [lia|]. cbn in Hj.
    destruct i as [|i]; cbn in Hi.
    + injection Hi as <-. cbn.
      apply list_elem_of_lookup_2, scan_sound in Hj as (p & -> & Hp & _).
      rewrite width_10 in *. cbn in Hp. lia.
    + eapply IH; [done | done | lia].
Qed.

(** Every occurrence of the pattern past the countdown starts inside a
    match: at its offset, or after it and before its end. *)
Lemma scan_covers (skip pos : nat) (s : str) (p : nat) :
  occurs_at s p -> (skip <= p)%nat ->
  exists m, m ∈ scan skip pos s /\
            (m_start m <= pos + p < m_start m + width)%nat.
Proof.
  revert skip pos p. induction s as [|c s IH]; intros skip pos p Hp Hle.
  - unfold occurs_at in Hp. by rewrite drop_nil in Hp.
  - destruct skip as [|k]; cbn [scan].
    + destruct (match_here (c :: s)) eqn:Hc.
      * destruct (decide (p < width)%nat) as [Hin | Hout].
        -- eexists. split; [by apply list_elem_of_here|].
           rewrite width_10 in *. cbn. lia.
        -- destruct p as [|p]; [rewrite width_10 in Hout; lia|].
           destruct (IH (pred width) (S pos) p) as (m & Hm & ?);
             [done | rewrite width_10 in *; cbn; lia |].
           exists m. split; [by apply list_elem_of_further | lia].
      * destruct p as [|p].
        { unfold occurs_at in Hp. rewrite drop_0 in Hp. congruence. }
        destruct (IH 0%nat (S pos) p) as (m & Hm & ?); [done | lia |].
        exists m. split; [done | lia].
    + destruct p as [|p]; [lia|].
      destruct (IH k (S pos) p) as (m & Hm & ?); [done | lia |].
      exists m. split; [done | lia].
Qed.

Lemma finditer_sound (text : str) (m : re_match) :
  m ∈ finditer text ->
  occurs_at text (m_start m) /\
  m_group m = take width (drop (m_start m) text).
Proof.
  intros (p & Hs & _ & ? & ?)%scan_sound. cbn in Hs. by subst p.
Qed.

(** No match of [finditer] starts after the last one. *)
Lemma finditer_last_greatest (text : str) (ml m : re_match) :
  last (finditer text) = Some ml -> m ∈ finditer text ->
  (m_start m <= m_start ml)%nat.
Proof.
  intros Hl (i & Hi)%list_elem_of_lookup_1.
  rewrite last_lookup in Hl.
  destruct (decide (i < pred (length (finditer text)))%nat) as [Hlt|Hge].
  - pose proof (scan_increasing _ _ _ _ _ _ _ Hi Hl Hlt). lia.
  - apply lookup_lt_Some in Hi as Hi'.
    assert (i = pred (length (finditer text))) as -> by lia.
    rewrite Hi in Hl. injection Hl as ->. lia.
Qed.

(** Where the pattern occurs, [finditer] has a match. *)
Lemma finditer_nonempty (text : str) (p : nat) :
  occurs_at text p -> exists ml, last (finditer text) = Some ml.
Proof.
  intros Hp. destruct (scan_covers 0 0 text p Hp) as (m & Hm & _); [lia|].
  destruct (last (finditer text)) as [ml|] eqn:Hl; [by eexists|].
  apply last_None in Hl. unfold finditer in Hl. rewrite Hl in Hm.
  by apply elem_of_nil in Hm.
Qed.

(** Without a match there is no occurrence. *)
Lemma finditer_empty (text : str) :
  last (finditer text) = None -> forall p, ~ occurs_at text p.
Proof.
  intros Hl p Hp. destruct (finditer_nonempty text p Hp) as [ml Hml]. congruence.
Qed.

(** Every occurrence starts before the end of the last match. *)
Lemma occurrence_before_last_end (text : str) (ml : re_match) (p : nat) :
  last (finditer text) = Some ml -> occurs_at text p ->
  (p < m_start ml + width)%nat.
Proof.
  intros Hl Hp. destruct (scan_covers 0 0 text p Hp) as (m & Hm & Hin); [lia|].
  pose proof (finditer_last_greatest text ml m Hl Hm).
  rewrite width_10 in *. cbn in Hin. lia.
Qed.


(** Then the last match is the occurrence of greatest offset. *)
Lemma last_is_greatest_occurrence (text : str) (ml : re_match) (p : nat) :
  disjoint_occurrences text ->
  last (finditer text) = Some ml -> occurs_at text p ->
  (p <= m_start ml)%nat.
Proof.
  intros Hd Hl Hp. destruct (scan_covers 0 0 text p Hp) as (m & Hm & Hin); [lia|].
  pose proof (finditer_last_greatest text ml m Hl Hm).
  apply finditer_sound in Hm as [Hm _]. change (0 + p)%nat with p in Hin.
  destruct (decide (m_start m = p)) as [|Hne]; [lia|].
  assert (m_start m < p)%nat as Hlt by lia.
  pose proof (Hd _ _ Hm Hp Hlt). lia.
Qed.
End RegexFacts.

(** ** Running the library calls *)

Section RunFacts.
Context `{rt : Runtime}.

Lemma new_path_ne (p : list N) : new_path_of p <> p.
Proof.
  intros H. apply (f_equal length) in H. unfold new_path_of, drop_last4 in H.
  rewrite length_app, length_take in H. cbn in H. lia.
Qed.

Lemma new_path_of_stem (stem ext : str) :
  length ext = 4%nat -> new_path_of (stem ++ ext) = stem ++ codes "_new.pdf".
Proof.
  intros Hlen. unfold new_path_of, drop_last4.
  by rewrite length_app, Hlen, Nat.add_sub, take_app_length.
Qed.

Lemma bind_ret_eq {A B} (m : M A) (k : A -> M B) (w w' : world) (a : A) :
  m w = (Ret a, w') -> bind m k w = k a w'.
Proof. intros H. unfold bind. by rewrite H. Qed.

Lemma bind_raise_eq {A B} (m : M A) (k : A -> M B) (w w' : world) (e : exn) :
  m w = (Raise e, w') -> bind m k w = (Raise e, w').
Proof. intros H. unfold bind. by rewrite H. Qed.


Lemma fitz_open_ok (w : world) (path : list N) (pages : list page) :
  files w !! path = Some (Document pages) ->
  fitz_open path w = (Ret (length (docs w)), cur w (doc_of path pages false)).
Proof. intros H. unfold fitz_open. by rewrite H. Qed.

Lemma last_page_ok (w : world) path front pg b :
  last_page (length (docs w)) (cur w (doc_of path (front ++ [pg]) b))
  = (Ret (length (docs w), length front), cur w (doc_of path (front ++ [pg]) b)).
Proof.
  unfold last_page. cbn [docs cur set_docs].
  rewrite list_lookup_middle by done. cbn [d_pages doc_of].
  destruct (front ++ [pg]) eqn:E; [by destruct front|].
  rewrite <- E, length_app. cbn. do 3 f_equal. lia.
Qed.

Lemma the_page_cur (w : world) path front pg b :
  the_page (length (docs w), length front) (cur w (doc_of path (front ++ [pg]) b)) = Some pg.
Proof.
  unfold the_page. cbn [docs cur set_docs fst snd].
  rewrite list_lookup_middle by done. cbn. by rewrite list_lookup_middle.
Qed.

Lemma get_text_ok (w : world) path front pg b :
  get_text (length (docs w), length front) (cur w (doc_of path (front ++ [pg]) b))
  = (Ret (page_text pg), cur w (doc_of path (front ++ [pg]) b)).
Proof. unfold get_text. by rewrite the_page_cur. Qed.

Lemma search_for_ok (w : world) path front pg b needle :
  search_for (length (docs w), length front) needle (cur w (doc_of path (front ++ [pg]) b))
  = (Ret (page_search pg needle), cur w (doc_of path (front ++ [pg]) b)).
Proof. unfold search_for. by rewrite the_page_cur. Qed.

Lemma edit_page_ok (w : world) path front pg b e :
  edit_page (length (docs w), length front) e (cur w (doc_of path (front ++ [pg]) b))
  = (Ret tt, cur w (doc_of path (front ++ [add_edit e pg]) b)).
Proof.
  unfold edit_page. rewrite the_page_cur. f_equal.
  unfold cur. cbn [docs set_docs fst snd].
  replace (length (docs w)) with (length (docs w) + 0)%nat at 1 by lia.
  rewrite alter_app_r. cbn. unfold edit_doc, doc_of. cbn.
  replace (length front) with (length front + 0)%nat at 1 by lia.
  by rewrite alter_app_r.
Qed.

Lemma save_run (w : world) (d : docobj) (p : str) :
  save (length (docs w)) p (cur w d) =
    if bool_decide (d_name d = p) || unwritable w p
    then raise LibraryError p (cur w d)
    else (Ret tt, set_files (<[p := Document (d_pages d)]> (files w)) (cur w d)).
Proof.
  unfold save. cbn [docs cur set_docs]. by rewrite list_lookup_middle.
Qed.

Lemma alter_last (f : docobj -> docobj) (ds : list docobj) (d : docobj) :
  alter f (length ds) (ds ++ [d]) = ds ++ [f d].
Proof.
  replace (length ds) with (length ds + 0)%nat at 1 by lia.
  by rewrite alter_app_r.
Qed.

Lemma close_run (w : world) (d : docobj) :
  close (length (docs w)) (cur w d) = (Ret tt, cur w (close_doc d)).
Proof. unfold close, cur. cbn [docs set_docs]. by rewrite alter_last. Qed.

Lemma close_saved_run (w : world) (d : docobj) (fs : gmap (list N) file) :
  close (length (docs w)) (set_files fs (cur w d))
  = (Ret tt, set_files fs (cur w (close_doc d))).
Proof. unfold close, cur. cbn [docs set_docs set_files]. by rewrite alter_last. Qed.


Lemma print_ok (w : world) (line : str) :
  printable w line = true -> print line w = (Ret tt, say w line).
Proof. intros H. unfold print. by rewrite H. Qed.

Lemma print_refused (w : world) (line : str) :
  printable w line = false ->
  print line w = (Raise {| e_kind := UnicodeEncodeError;
                          e_str := strerror UnicodeEncodeError line |}, w).
Proof. intros H. unfold print. by rewrite H. Qed.
End RunFacts.

(** One call of a sequence, by the lemma [lem] about it. *)
Ltac step lem := erewrite bind_ret_eq by (by apply lem); cbv beta.

(** ** The GUI worker on one file *)

Section GuiFacts.
Context `{rt : Runtime}.

(** The edits of lines 55-60 on an open document. *)
Lemma gui_edit_run (self : thread) (w : world) (path : str) (front : list page) (pg : page) :
  (let page := (length (docs w), length front) in
   match last (finditer (page_text pg)) with
   | Some last_match =>
       rects <- search_for page (m_group last_match) ;;
       match last rects with
       | Some rect =>
           add_redact_annot page rect (1, 1, 1)%Z ;;;
           apply_redactions page ;;;
           insert_text page (tl rect) (new_date self) 12 (0, 0, 0)%Z
       | None => ret tt
       end
   | None => ret tt
   end) (cur w (doc_of path (front ++ [pg]) false))
  = (Ret tt, cur w (doc_of path (front ++ [gui_page self pg]) false)).
Proof.
  unfold gui_page, edited_at, gui_site. cbv zeta.
  destruct (last (finditer (page_text pg))) as [ml|]; cbn [mbind option_bind]; [|done].
  step search_for_ok.
  destruct (last (page_search pg (m_group ml))) as [r|]; [|done].
  unfold add_redact_annot, apply_redactions, insert_text.
  step edit_page_ok. step edit_page_ok. by rewrite edit_page_ok.
Qed.

(** What [process_pdf] does to a world where [pdf_path] is a document
    with a last page: the document object is edited and saved; where the
    output cannot be written, the exception leaves the object open. *)
Lemma process_pdf_run (self : thread) (w : world) (pdf_path : str)
    (front : list page) (pg : page) :
  files w !! pdf_path = Some (Document (front ++ [pg])) ->
  process_pdf self pdf_path w
  = gui_outcome w self pdf_path (front ++ [gui_page self pg]).
Proof.
  intros Hf. unfold process_pdf, gui_outcome.
  step fitz_open_ok.
  step last_page_ok. step get_text_ok. cbv zeta.
  step gui_edit_run.
  unfold bind at 1. rewrite save_run. cbn [d_name d_pages doc_of].
  rewrite bool_decide_false by (intros E; by apply (new_path_ne pdf_path)).
  cbn [orb]. destruct (unwritable w (new_path_of pdf_path)); [done|].
  unfold bind at 1. rewrite close_saved_run.
  destruct (delete_original self); [|done].
  unfold try_except, os_remove. cbn [files set_files andb].
  rewrite lookup_insert_ne by apply new_path_ne. rewrite Hf.
  cbn [undeletable set_files cur set_docs].
  by destruct (undeletable w pdf_path).
Qed.
End GuiFacts.

(** ** The CLI tool on one file *)

Section CliFacts.
Context `{rt : Runtime}.

(** The handler never fails: it prints one line and returns failure. *)
Lemma handler_run (w : world) (e : exn) :
  (try_except_unicode
     (print (codes "ERROR: " ++ e_str e))
     (print (codes "ERROR: [unicode encoding error]")) ;;;
   ret (false, None)) w = failed w e.
Proof.
  unfold failed, line_error, bind, try_except_unicode, try_except, print at 1.
  destruct (printable w (codes "ERROR: " ++ e_str e)); [done|].
  cbn [raise e_kind]. by rewrite print_ok.
Qed.

(** A branch [print(line); return False, None] under the handler. *)
Lemma refused_run (w : world) (line : str) :
  try_except (print line ;;; ret (false, None))
    (fun e =>
       try_except_unicode
         (print (codes "ERROR: " ++ e_str e))
         (print (codes "ERROR: [unicode encoding error]")) ;;;
       ret (false, None)) w
  = refused w line.
Proof.
  unfold refused, try_except, bind at 1, print at 1.
  destruct (printable w line); [done|].
  cbn [raise]. by rewrite handler_run.
Qed.

Lemma replace_date_in_pdf_run (w : world) (pdf_path old_date new_date : str)
    (front : list page) (pg : page) :
  files w !! pdf_path = Some (Document (front ++ [pg])) ->
  replace_date_in_pdf pdf_path old_date new_date w
  = cli_outcome w pdf_path old_date new_date front pg.
Proof.
  intros Hf. unfold replace_date_in_pdf, cli_outcome, cli_replace, try_except at 1.
  step fitz_open_ok. step last_page_ok. step get_text_ok. cbv zeta.
  destruct (last (finditer (page_text pg))) as [ml|].
  2: { step close_run. apply (refused_run _ line_no_dates). }
  case_bool_decide.
  2: { step close_run. apply (refused_run _ (line_mismatch _ _)). }
  step search_for_ok.
  destruct (last (page_search pg old_date)) as [r|].
  2: { step close_run. apply (refused_run _ (line_not_visual _)). }
  unfold add_redact_annot, apply_redactions, insert_text.
  step edit_page_ok. step edit_page_ok. step edit_page_ok.
  unfold bind at 1. rewrite save_run. cbn [d_name d_pages doc_of].
  rewrite bool_decide_false by (intros E; by apply (new_path_ne pdf_path)).
  cbn [orb]. destruct (unwritable w (new_path_of pdf_path)).
  { cbn [raise]. apply handler_run. }
  step close_saved_run.
  unfold bind at 1, print at 1.
  change (printable _ (codes "SUCCESS: Date replaced " ++ old_date ++ codes " -> " ++ new_date))
    with (printable w (line_replaced old_date new_date)).
  destruct (printable w (line_replaced old_date new_date)) eqn:Hp.
  2: { cbn [raise]. apply handler_run. }
  unfold bind, try_except_unicode, try_except, print at 1, line_saved.
  change (printable _ (codes "SAVED: " ++ new_path_of pdf_path))
    with (printable w (codes "SAVED: " ++ new_path_of pdf_path)).
  destruct (printable w (codes "SAVED: " ++ new_path_of pdf_path)); [done|].
  cbn [raise e_kind]. by rewrite print_ok.
Qed.

(** [main] once the file exists and [replace_date_in_pdf] has returned. *)
Lemma main_run (a : args) (w w' : world) (r : bool * option str) :
  is_Some (files w !! a_pdf_path a) ->
  replace_date_in_pdf (a_pdf_path a) (a_old_date a) (a_new_date a) w = (Ret r, w') ->
  main a w = main_outcome a r w'.
Proof.
  intros Hex Hr. unfold main, main_body, main_outcome.
  unfold delete_outcome, line_processed, line_deleted, line_failed.
  unfold bind at 1, os_path_exists. rewrite bool_decide_true by done. cbn [negb].
  unfold bind at 1. rewrite Hr. destruct r as [[|] new_path]; cbn [fst].
  - unfold bind at 1. rewrite print_ok by reflexivity.
    destruct (a_delete_original a); [|done].
    unfold bind at 1, try_except, bind at 1.
    destruct (os_remove (a_pdf_path a) _) as [[[]|e] w2].
    + by rewrite print_ok by reflexivity.
    + unfold print, line_warning.
      by destruct (printable w2 _).
  - unfold bind at 1. by rewrite print_ok by reflexivity.
Qed.

Lemma refused_result (w : world) (line : str) :
  (refused w line).1 = Ret (false, None) /\
  files (refused w line).2 = files w /\ docs (refused w line).2 = docs w /\
  (printable w line = true -> (refused w line).2 = say w line) /\
  (printable w line = false ->
   (refused w line).2 = say w (line_error w (exn_of UnicodeEncodeError line))).
Proof. unfold refused, failed. by destruct (printable w line). Qed.
End CliFacts.

(** ** The document object of a run *)

Section Created.
Context `{rt : Runtime}.

Lemma page_edits_with_edits (es : list edit) (pg : page) :
  page_edits (with_edits es pg) = page_edits pg ++ es.
Proof.
  revert pg. induction es as [|e es IH]; intros pg; cbn.
  - by rewrite app_nil_r.
  - unfold with_edits in IH. rewrite IH. cbn. by rewrite <- app_assoc.
Qed.

Lemma page_text_with_edits (es : list edit) (pg : page) :
  page_text (with_edits es pg) = page_text pg /\
  page_search (with_edits es pg) = page_search pg.
Proof.
  revert pg. induction es as [|e es IH]; intros pg; [done|].
  cbn. unfold with_edits in IH. by destruct (IH (add_edit e pg)).
Qed.

(** The GUI worker leaves one document object: the pages before the
    last as they were, the last page edited, closed unless the output
    could not be written. *)
Lemma gui_created (self : thread) (w : world) (pdf_path : str)
    (front : list page) (pg : page) :
  files w !! pdf_path = Some (Document (front ++ [pg])) ->
  created w (process_pdf self pdf_path w).2
  = Some (doc_of pdf_path (front ++ [gui_page self pg])
            (negb (unwritable w (new_path_of pdf_path)))).
Proof.
  intros Hf. rewrite (process_pdf_run _ _ _ _ _ Hf). unfold gui_outcome, created.
  destruct (unwritable w (new_path_of pdf_path)); cbn [negb].
  - by apply list_lookup_middle.
  - cbv zeta. destruct (_ && _); by apply list_lookup_middle.
Qed.

Lemma refused_created (w : world) (d : docobj) (line : str) :
  created w (refused (cur w d) line).2 = Some d.
Proof.
  unfold refused, failed, created. destruct (printable _ line);
    by apply list_lookup_middle.
Qed.

(** So does the CLI tool: it is closed unless the page was edited and
    the output could not be written. *)
Lemma cli_created (w : world) (pdf_path old_date new_date : str)
    (front : list page) (pg : page) :
  files w !! pdf_path = Some (Document (front ++ [pg])) ->
  created w (replace_date_in_pdf pdf_path old_date new_date w).2
  = Some (doc_of pdf_path
            (front ++ [edited_at (cli_site pg old_date) cli_anchor new_date pg])
            (negb (bool_decide (is_Some (cli_site pg old_date))
                   && unwritable w (new_path_of pdf_path)))).
Proof.
  intros Hf. rewrite (replace_date_in_pdf_run _ _ _ _ _ _ Hf).
  unfold cli_outcome, cli_replace, cli_site.
  destruct (last (finditer (page_text pg))) as [ml|]; cbn [mbind option_bind];
    [|apply refused_created].
  case_bool_decide; [|apply refused_created].
  destruct (last (page_search pg old_date)) as [rect|]; [|apply refused_created].
  rewrite bool_decide_true by done. cbn [andb edited_at]. cbv zeta.
  destruct (unwritable w (new_path_of pdf_path)); cbn [negb].
  - unfold failed, created. by apply list_lookup_middle.
  - destruct (printable w _); unfold failed, created; by apply list_lookup_middle.
Qed.
End Created.

(** ** The old date *)

Section OldDate.
Context `{rt : Runtime}.

Lemma finditer_none (text : str) :
  (forall p, ~ occurs_at text p) -> last (finditer text) = None.
Proof.
  intros Hno. destruct (last (finditer text)) as [ml|] eqn:Hl; [|done].
  apply last_Some_elem_of, finditer_sound in Hl as [Hl _]. by apply Hno in Hl.
Qed.

(** C1. Where the text of the last page has a substring matching the
    date pattern, both programs take the last match of [re.finditer] as
    the old date: it is the text at its offset, no match has a greater
    offset, and every substring matching the pattern starts before its
    end (at or before its offset when no two such substrings overlap).
    The GUI worker searches the page for it and the CLI tool compares it
    with the old date it was given. *)
Theorem last_match_is_old_date (w : world) (pdf_path : str)
    (front : list page) (pg : page) (p : nat) :
  files w !! pdf_path = Some (Document (front ++ [pg])) ->
  occurs_at (page_text pg) p ->
  exists last_match,
    last (finditer (page_text pg)) = Some last_match /\
    occurs_at (page_text pg) (m_start last_match) /\
    m_group last_match = take width (drop (m_start last_match) (page_text pg)) /\
    (forall m, m ∈ finditer (page_text pg) ->
               (m_start m <= m_start last_match)%nat) /\
    (forall q, occurs_at (page_text pg) q ->
               (q < m_start last_match + width)%nat) /\
    (disjoint_occurrences (page_text pg) ->
     forall q, occurs_at (page_text pg) q -> (q <= m_start last_match)%nat) /\
    (forall self,
       process_pdf self pdf_path w
       = gui_outcome w self pdf_path
           (front ++ [edited_at (last (page_search pg (m_group last_match)))
                        tl (new_date self) pg])) /\
    (forall old_date new_date,
       replace_date_in_pdf pdf_path old_date new_date w
       = if bool_decide (m_group last_match = old_date)
         then cli_replace w pdf_path old_date new_date front pg
         else refused (cur w (doc_of pdf_path (front ++ [pg]) true))
                (line_mismatch old_date (m_group last_match))).
Proof.
  intros Hf Hp. destruct (finditer_nonempty _ _ Hp) as [ml Hl].
  exists ml. pose proof (last_Some_elem_of _ _ Hl) as Hin.
  apply finditer_sound in Hin as [Hocc Hgrp].
  split_and!; [done | done | done | | | | |].
  - intros m. by apply finditer_last_greatest.
  - intros q. by apply occurrence_before_last_end.
  - intros Hd q. by apply last_is_greatest_occurrence.
  - intros self. rewrite (process_pdf_run _ _ _ _ _ Hf).
    unfold gui_page, gui_site. by rewrite Hl.
  - intros old_date new_date. rewrite (replace_date_in_pdf_run _ _ _ _ _ _ Hf).
    unfold cli_outcome. by rewrite Hl.
Qed.

(** C2, as amended: in the CLI tool, a document whose last page has no
    substring matching the date pattern makes [replace_date_in_pdf] close
    the document, print that no dates were found and return failure; no
    file is written or changed, the page is not edited, and the process
    ends with status 1. *)
Theorem cli_no_date_found (a : args) (w : world) (front : list page) (pg : page) :
  files w !! a_pdf_path a = Some (Document (front ++ [pg])) ->
  (forall p, ~ occurs_at (page_text pg) p) ->
  let closed := cur w (doc_of (a_pdf_path a) (front ++ [pg]) true) in
  replace_date_in_pdf (a_pdf_path a) (a_old_date a) (a_new_date a) w
    = (Ret (false, None), say closed line_no_dates) /\
  main a w = (1%Z, say (say closed line_no_dates) line_failed) /\
  files (main a w).2 = files w /\
  stdout (main a w).2 = stdout w ++ [line_no_dates; line_failed].
Proof.
  intros Hf Hno closed.
  assert (replace_date_in_pdf (a_pdf_path a) (a_old_date a) (a_new_date a) w
          = (Ret (false, None), say closed line_no_dates)) as Hr.
  { rewrite (replace_date_in_pdf_run _ _ _ _ _ _ Hf). unfold cli_outcome.
    by rewrite finditer_none. }
  rewrite (main_run a w _ _ (mk_is_Some _ _ Hf) Hr).
  split_and!; [done | done | done |].
  cbn. by rewrite <- app_assoc.
Qed.

(** C3. In the CLI tool, where the old date given differs from the last
    match on the last page, [replace_date_in_pdf] returns failure and the
    process ends with status 1; the document object is closed with its
    pages as they were, no file is written or changed, and stdout gets
    the report of the date expected and the date found, or, where it
    cannot encode that line, the line of the handler. *)
Theorem cli_date_mismatch (a : args) (w : world) (front : list page) (pg : page)
    (last_match : re_match) :
  files w !! a_pdf_path a = Some (Document (front ++ [pg])) ->
  last (finditer (page_text pg)) = Some last_match ->
  m_group last_match <> a_old_date a ->
  (replace_date_in_pdf (a_pdf_path a) (a_old_date a) (a_new_date a) w).1
    = Ret (false, None) /\
  (main a w).1 = 1%Z /\
  files (main a w).2 = files w /\
  created w (main a w).2 = Some (doc_of (a_pdf_path a) (front ++ [pg]) true) /\
  (printable w (line_mismatch (a_old_date a) (m_group last_match)) = true ->
   stdout (main a w).2
   = stdout w ++ [line_mismatch (a_old_date a) (m_group last_match); line_failed]) /\
  (printable w (line_mismatch (a_old_date a) (m_group last_match)) = false ->
   stdout (main a w).2
   = stdout w
       ++ [line_error w (exn_of UnicodeEncodeError
                           (line_mismatch (a_old_date a) (m_group last_match)));
           line_failed]).
Proof.
  intros Hf Hl Hne.
  pose proof (replace_date_in_pdf_run w _ (a_old_date a) (a_new_date a) _ _ Hf) as Hr.
  unfold cli_outcome in Hr. rewrite Hl, bool_decide_false in Hr by done.
  set (closed := cur w (doc_of (a_pdf_path a) (front ++ [pg]) true)) in *.
  set (line := line_mismatch (a_old_date a) (m_group last_match)) in *.
  destruct (refused_result closed line) as (H1 & H2 & H3 & H4 & H5).
  destruct (refused closed line) as [r w'] eqn:E. cbn [fst snd] in *. subst r.
  rewrite (main_run a w _ _ (mk_is_Some _ _ Hf) Hr). rewrite Hr.
  unfold main_outcome, created. cbn.
  split_and!; [done | done | done | | |].
  - rewrite H3. by apply list_lookup_middle.
  - intros Hp. rewrite (H4 Hp). cbn. by rewrite <- app_assoc.
  - intros Hp. rewrite (H5 Hp). cbn. by rewrite <- app_assoc.
Qed.
End OldDate.


(** ** The edits of the last page *)

Section Edits.
Context `{rt : Runtime}.

Lemma edited_at_edits (site : option Rect) (anchor : Rect -> Point)
    (new_text : str) (pg : page) :
  edited_at site anchor new_text pg
  = with_edits (edits_at site anchor new_text) pg.
Proof. by destruct site. Qed.

Lemma insert_in_edits (site : option Rect) (anchor : Rect -> Point)
    (new_text : str) (pt : Point) (text : str) (size : Z) (color : Z * Z * Z) :
  InsertText pt text size color ∈ edits_at site anchor new_text ->
  text = new_text /\ size = 12%Z /\ color = (0, 0, 0)%Z /\
  exists rect, site = Some rect /\ pt = anchor rect.
Proof.
  destruct site as [rect|]; cbn; [|by intros ?%elem_of_nil].
  unfold replacement. rewrite !elem_of_cons, elem_of_nil.
  intros [?|[?|[E|[]]]]; try discriminate. injection E as -> -> -> ->.
  split_and!; [done | done | done |]. by exists rect.
Qed.

Lemma gui_site_Some (pg : page) (rect : Rect) :
  gui_site pg = Some rect <->
  exists last_match, last (finditer (page_text pg)) = Some last_match /\
                     last (page_search pg (m_group last_match)) = Some rect.
Proof.
  unfold gui_site. destruct (last (finditer (page_text pg))) as [ml|]; cbn.
  - split; [by eauto|]. by intros (? & [= <-] & ?).
  - split; [done|]. by intros (? & ? & ?).
Qed.

Lemma cli_site_Some (pg : page) (old_date : str) (rect : Rect) :
  cli_site pg old_date = Some rect <->
  exists last_match, last (finditer (page_text pg)) = Some last_match /\
                     m_group last_match = old_date /\
                     last (page_search pg old_date) = Some rect.
Proof.
  unfold cli_site. destruct (last (finditer (page_text pg))) as [ml|]; cbn.
  - case_bool_decide.
    + split; [by eauto|]. by intros (? & [= <-] & ? & ?).
    + split; [done|]. intros (? & [= <-] & ? & ?). done.
  - split; [done|]. by intros (? & ? & ?).
Qed.

(** C5. Whenever a replacement is made, the new date is inserted with
    font size 12 in black, at an anchor taken from the rectangle chosen
    (the last one the search for the old date returned): the GUI worker
    inserts at its top-left corner, the CLI tool at the x of its left
    edge and the y of its bottom edge plus five. *)
Theorem replacement_text_anchor (w : world) (pdf_path : str)
    (front : list page) (pg : page) :
  files w !! pdf_path = Some (Document (front ++ [pg])) ->
  (forall self, exists d es,
     created w (process_pdf self pdf_path w).2 = Some d /\
     d_pages d = front ++ [with_edits es pg] /\
     (forall pt text size color,
        InsertText pt text size color ∈ es ->
        text = new_date self /\ size = 12%Z /\ color = (0, 0, 0)%Z /\
        exists last_match rect,
          last (finditer (page_text pg)) = Some last_match /\
          last (page_search pg (m_group last_match)) = Some rect /\
          pt = tl rect /\ px pt = x0 rect /\ py pt = y0 rect) /\
     (forall last_match rect,
        last (finditer (page_text pg)) = Some last_match ->
        last (page_search pg (m_group last_match)) = Some rect ->
        InsertText (tl rect) (new_date self) 12 (0, 0, 0)%Z ∈ es)) /\
  (forall old_date new_date, exists d es,
     created w (replace_date_in_pdf pdf_path old_date new_date w).2 = Some d /\
     d_pages d = front ++ [with_edits es pg] /\
     (forall pt text size color,
        InsertText pt text size color ∈ es ->
        text = new_date /\ size = 12%Z /\ color = (0, 0, 0)%Z /\
        exists last_match rect,
          last (finditer (page_text pg)) = Some last_match /\
          m_group last_match = old_date /\
          last (page_search pg old_date) = Some rect /\
          px pt = x0 rect /\ py pt = add_int (y1 rect) 5) /\
     (forall last_match rect,
        last (finditer (page_text pg)) = Some last_match ->
        m_group last_match = old_date ->
        last (page_search pg old_date) = Some rect ->
        InsertText {| px := x0 rect; py := add_int (y1 rect) 5 |}
          new_date 12 (0, 0, 0)%Z ∈ es)).
Proof.
  intros Hf. split.
  - intros self. eexists _, (edits_at (gui_site pg) tl (new_date self)).
    split; [by apply gui_created|]. split.
    { cbn. unfold gui_page. by rewrite edited_at_edits. }
    split.
    + intros pt text size color (-> & -> & -> & rect & Hs & ->)%insert_in_edits.
      apply gui_site_Some in Hs as (ml & ? & ?).
      split_and!; [done | done | done |]. by exists ml, rect.
    + intros ml rect Hl Hr.
      assert (gui_site pg = Some rect) as -> by (apply gui_site_Some; eauto).
      cbn. unfold replacement. set_solver.
  - intros old_date new_date.
    eexists _, (edits_at (cli_site pg old_date) cli_anchor new_date).
    split; [by apply cli_created|]. split.
    { cbn. by rewrite edited_at_edits. }
    split.
    + intros pt text size color (-> & -> & -> & rect & Hs & ->)%insert_in_edits.
      apply cli_site_Some in Hs as (ml & ? & ? & ?).
      split_and!; [done | done | done |]. by exists ml, rect.
    + intros ml rect Hl Hg Hr.
      assert (cli_site pg old_date = Some rect) as ->
        by (apply cli_site_Some; eauto).
      cbn. unfold replacement, cli_anchor. cbn. set_solver.
Qed.

(** C6, as amended: for a document whose last page has a substring
    matching the date pattern, one date is the old date, the last match;
    the edits made are none, or the redaction of one rectangle, the last
    that the search for that date returned, and the insertion of the new
    text; the pages before the last are as they were. *)
Theorem one_date_one_rectangle (w : world) (pdf_path : str)
    (front : list page) (pg : page) (p : nat) :
  files w !! pdf_path = Some (Document (front ++ [pg])) ->
  occurs_at (page_text pg) p ->
  exists last_match,
    last (finditer (page_text pg)) = Some last_match /\
    (forall self, exists d es,
       created w (process_pdf self pdf_path w).2 = Some d /\
       d_pages d = front ++ [with_edits es pg] /\
       es = match last (page_search pg (m_group last_match)) with
            | Some rect => replacement rect (tl rect) (new_date self)
            | None => []
            end /\
       (forall r fill, AddRedactAnnot r fill ∈ es ->
                       last (page_search pg (m_group last_match)) = Some r)) /\
    (forall old_date new_date, exists d es,
       created w (replace_date_in_pdf pdf_path old_date new_date w).2 = Some d /\
       d_pages d = front ++ [with_edits es pg] /\
       es = (if bool_decide (m_group last_match = old_date)
             then match last (page_search pg old_date) with
                  | Some rect => replacement rect (cli_anchor rect) new_date
                  | None => []
                  end
             else []) /\
       (forall r fill, AddRedactAnnot r fill ∈ es ->
                       m_group last_match = old_date /\
                       last (page_search pg (m_group last_match)) = Some r)).
Proof.
  intros Hf Hp. destruct (finditer_nonempty _ _ Hp) as [ml Hl].
  exists ml. split; [done|]. split.
  - intros self. eexists _, (edits_at (gui_site pg) tl (new_date self)).
    split; [by apply gui_created|]. split.
    { cbn. unfold gui_page. by rewrite edited_at_edits. }
    unfold gui_site. rewrite Hl. cbn [mbind option_bind].
    split; [done|]. intros r fill.
    destruct (last (page_search pg (m_group ml))) as [rect|]; cbn;
      [|by intros ?%elem_of_nil].
    unfold replacement. rewrite !elem_of_cons, elem_of_nil.
    intros [E|[?|[?|[]]]]; try discriminate. by injection E as -> _.
  - intros old_date new_date.
    eexists _, (edits_at (cli_site pg old_date) cli_anchor new_date).
    split; [by apply cli_created|]. split.
    { cbn. by rewrite edited_at_edits. }
    unfold cli_site. rewrite Hl. cbn [mbind option_bind].
    case_bool_decide as Hg; [|split; [done|by intros ? ? ?%elem_of_nil]].
    split; [done|]. intros r fill. rewrite Hg.
    destruct (last (page_search pg old_date)) as [rect|]; cbn;
      [|by intros ?%elem_of_nil].
    unfold replacement. rewrite !elem_of_cons, elem_of_nil.
    intros [E|[?|[?|[]]]]; try discriminate. by injection E as -> _.
Qed.
End Edits.

(** ** Closing the document, saving and deleting *)

Section Resources.
Context `{rt : Runtime}.

(** The document is closed on every path but one: where [doc.save]
    raises, neither program closes it. *)
Lemma closed_unless_save_fails (w : world) (pdf_path : str)
    (front : list page) (pg : page) :
  files w !! pdf_path = Some (Document (front ++ [pg])) ->
  (forall self,
     d_closed <$> created w (process_pdf self pdf_path w).2
     = Some (negb (unwritable w (new_path_of pdf_path)))) /\
  (forall old_date new_date,
     d_closed <$> created w (replace_date_in_pdf pdf_path old_date new_date w).2
     = Some (negb (bool_decide (is_Some (cli_site pg old_date))
                   && unwritable w (new_path_of pdf_path)))).
Proof.
  intros Hf. split.
  - intros self. by rewrite (gui_created _ _ _ _ _ Hf).
  - intros old_date new_date. by rewrite (cli_created _ _ _ _ _ _ Hf).
Qed.

(** A document without pages is left open as well: [doc[-1]] raises. *)
Lemma no_page_left_open (self : thread) (w : world) (pdf_path : str) :
  files w !! pdf_path = Some (Document []) ->
  process_pdf self pdf_path w
  = raise LibraryError pdf_path (cur w (doc_of pdf_path [] false)).
Proof.
  intros Hf. unfold process_pdf. step fitz_open_ok.
  unfold bind, last_page. cbn [docs cur set_docs].
  by rewrite list_lookup_middle.
Qed.

Lemma files_gui_outcome (w : world) (self : thread) (pdf_path : str)
    (pages : list page) (q : str) :
  files (gui_outcome w self pdf_path pages).2 !! q =
    if unwritable w (new_path_of pdf_path) then files w !! q
    else if bool_decide (q = pdf_path)
              && (delete_original self && negb (undeletable w pdf_path))
         then None
         else if bool_decide (q = new_path_of pdf_path)
              then Some (Document pages)
              else files w !! q.
Proof.
  unfold gui_outcome. destruct (unwritable w (new_path_of pdf_path)); [done|].
  cbv zeta. cbn [snd].
  destruct (delete_original self && negb (undeletable w pdf_path)); cbn.
  - case_bool_decide as Hq; cbn.
    + subst q. by rewrite lookup_delete_eq.
    + rewrite lookup_delete_ne by done.
      case_bool_decide as Hn.
      * subst q. by rewrite lookup_insert_eq.
      * by rewrite lookup_insert_ne.
  - rewrite andb_false_r. case_bool_decide as Hn.
    + subst q. by rewrite lookup_insert_eq.
    + by rewrite lookup_insert_ne.
Qed.

(** C10. For every document with a last page that the GUI worker opens
    and whose output path can be written, [process_pdf] returns normally
    and has saved the document at the input path without its last four
    characters followed by [_new.pdf]: with the last page as it was when
    no date was found on it or the date found has no rectangle, edited
    otherwise; with the delete flag set, the original is then deleted
    (where it can be), and it is as it was without the flag. *)
Theorem gui_saves_unconditionally (self : thread) (w : world) (pdf_path : str)
    (front : list page) (pg : page) :
  files w !! pdf_path = Some (Document (front ++ [pg])) ->
  unwritable w (new_path_of pdf_path) = false ->
  (process_pdf self pdf_path w).1 = Ret tt /\
  files (process_pdf self pdf_path w).2 !! new_path_of pdf_path
    = Some (Document (front ++ [gui_page self pg])) /\
  (last (finditer (page_text pg)) = None \/
   (exists last_match, last (finditer (page_text pg)) = Some last_match /\
                       page_search pg (m_group last_match) = []) ->
   gui_page self pg = pg) /\
  (forall stem c1 c2 c3 c4, pdf_path = stem ++ [c1; c2; c3; c4] ->
                            new_path_of pdf_path = stem ++ codes "_new.pdf") /\
  (delete_original self = true -> undeletable w pdf_path = false ->
   files (process_pdf self pdf_path w).2 !! pdf_path = None) /\
  (delete_original self = false ->
   files (process_pdf self pdf_path w).2 !! pdf_path = files w !! pdf_path).
Proof.
  intros Hf Hw. pose proof (new_path_ne pdf_path) as Hne.
  rewrite (process_pdf_run _ _ _ _ _ Hf).
  split_and!.
  - unfold gui_outcome. by rewrite Hw.
  - rewrite files_gui_outcome, Hw.
    rewrite (bool_decide_false (new_path_of pdf_path = pdf_path)) by done.
    cbn [andb]. by rewrite bool_decide_true.
  - unfold gui_page, gui_site.
    intros [-> | (ml & -> & Hs)]; cbn; [done|]. by rewrite Hs.
  - intros stem c1 c2 c3 c4 ->. by apply new_path_of_stem.
  - intros Hd Hu. rewrite files_gui_outcome, Hw, Hd, Hu.
    by rewrite bool_decide_true.
  - intros Hd. rewrite files_gui_outcome, Hw, Hd. cbn [andb].
    rewrite andb_false_r. by rewrite bool_decide_false.
Qed.

(** Where the original cannot be deleted, the GUI worker does as it does
    without the delete flag: the error of [os.remove] is dropped. *)
Lemma gui_swallows_deletion_error (self : thread) (w : world) (pdf_path : str)
    (front : list page) (pg : page) :
  files w !! pdf_path = Some (Document (front ++ [pg])) ->
  undeletable w pdf_path = true ->
  process_pdf self pdf_path w = process_pdf (without_delete self) pdf_path w.
Proof.
  intros Hf Hu. rewrite !(process_pdf_run _ _ _ _ _ Hf).
  unfold gui_outcome, gui_page. cbn [new_date delete_original without_delete].
  rewrite Hu. cbn [negb andb]. by rewrite andb_false_r.
Qed.

(** Without the delete flag the CLI tool leaves the original as it was. *)
Lemma cli_keeps_original (a : args) (w : world) (front : list page) (pg : page) :
  files w !! a_pdf_path a = Some (Document (front ++ [pg])) ->
  a_delete_original a = false ->
  files (main a w).2 !! a_pdf_path a = files w !! a_pdf_path a.
Proof.
  intros Hf Hd. pose proof (new_path_ne (a_pdf_path a)) as Hne.
  pose proof (replace_date_in_pdf_run w _ (a_old_date a) (a_new_date a) _ _ Hf) as Hr.
  destruct (cli_outcome w (a_pdf_path a) (a_old_date a) (a_new_date a) front pg)
    as [[r|e] w'] eqn:E.
  2: { exfalso. revert E. unfold cli_outcome, cli_replace, refused, failed.
       repeat case_match; discriminate. }
  rewrite (main_run a w _ _ (mk_is_Some _ _ Hf) Hr).
  assert (files w' !! a_pdf_path a = files w !! a_pdf_path a) as Hsame.
  { revert E. unfold cli_outcome, cli_replace, refused, failed.
    repeat case_match; intros [= <- <-]; cbn; try done;
      by rewrite lookup_insert_ne. }
  unfold main_outcome. rewrite Hd. by destruct (r.1).
Qed.

(** With the delete flag, after a successful replacement: the original
    is deleted and the status is 0; where it cannot be deleted it stays,
    and the status is 0 when the warning can be printed and 1, from the
    exception of [print], when it cannot. *)
Lemma cli_deletion (a : args) (w : world) (front : list page) (pg : page)
    (new_path : option str) :
  files w !! a_pdf_path a = Some (Document (front ++ [pg])) ->
  a_delete_original a = true ->
  (replace_date_in_pdf (a_pdf_path a) (a_old_date a) (a_new_date a) w).1
    = Ret (true, new_path) ->
  (main a w).1 =
    (if undeletable w (a_pdf_path a)
        && negb (printable w (line_warning (exn_of OSError (a_pdf_path a))))
     then 1%Z else 0%Z) /\
  files (main a w).2 !! a_pdf_path a =
    (if undeletable w (a_pdf_path a) then files w !! a_pdf_path a else None).
Proof.
  intros Hf Hd Hok. pose proof (new_path_ne (a_pdf_path a)) as Hne.
  pose proof (replace_date_in_pdf_run w _ (a_old_date a) (a_new_date a) _ _ Hf) as Hr.
  rewrite Hr in Hok.
  destruct (cli_outcome w (a_pdf_path a) (a_old_date a) (a_new_date a) front pg)
    as [r w'] eqn:E. cbn in Hok. subst r.
  rewrite (main_run a w _ _ (mk_is_Some _ _ Hf) Hr).
  assert (files w' !! a_pdf_path a = files w !! a_pdf_path a
          /\ undeletable w' = undeletable w /\ console w' = console w)
    as (Hsame & Hu & Hc).
  { revert E. unfold cli_outcome, cli_replace, refused, failed.
    repeat case_match; intros ?; simplify_eq; cbn.
    split_and!; [by rewrite lookup_insert_ne | done | done]. }
  unfold main_outcome, delete_outcome, os_remove. cbn [fst]. rewrite Hd.
  cbn [files say set_stdout undeletable]. rewrite Hsame, Hf, Hu.
  destruct (undeletable w (a_pdf_path a)); cbn [raise andb].
  - unfold printable, exn_of. cbn [console say set_stdout]. rewrite Hc.
    destruct (forallb _ _); cbn; by rewrite Hsame.
  - cbn. by rewrite lookup_delete_eq.
Qed.
End Resources.

(** ** The output path *)

Section OutputPath.
Context `{rt : Runtime}.

(** What [replace_date_in_pdf] leaves of the files: they are as they
    were, or the output path holds a document; the result is a value,
    and on success it names the output path. *)
Lemma cli_outcome_files (w w' : world) (pdf_path old_date new_date : str)
    (front : list page) (pg : page) (r : res (bool * option str)) :
  cli_outcome w pdf_path old_date new_date front pg = (r, w') ->
  exists ok new_path,
    r = Ret (ok, new_path) /\
    undeletable w' = undeletable w /\ console w' = console w /\
    (ok = true -> new_path = Some (new_path_of pdf_path)) /\
    (files w' = files w \/
     exists pages, files w' = <[new_path_of pdf_path := Document pages]> (files w)).
Proof.
  unfold cli_outcome, cli_replace, refused, failed.
  repeat case_match; intros ?; simplify_eq; cbn;
    eexists _, _; (split; [done|]); split_and!; eauto; done.
Qed.

(** [main] writes no path but the output path and the original. *)
Lemma cli_writes_only_output (a : args) (w : world) (front : list page)
    (pg : page) (q : str) :
  files w !! a_pdf_path a = Some (Document (front ++ [pg])) ->
  q <> a_pdf_path a -> q <> new_path_of (a_pdf_path a) ->
  files (main a w).2 !! q = files w !! q.
Proof.
  intros Hf Hq Hn.
  pose proof (replace_date_in_pdf_run w _ (a_old_date a) (a_new_date a) _ _ Hf) as Hr.
  destruct (cli_outcome w (a_pdf_path a) (a_old_date a) (a_new_date a) front pg)
    as [r w'] eqn:E.
  apply cli_outcome_files in E as (ok & np & -> & _ & _ & _ & Hfiles).
  rewrite (main_run a w _ _ (mk_is_Some _ _ Hf) Hr).
  assert (files w' !! q = files w !! q) as Hsame.
  { destruct Hfiles as [-> | [pages ->]]; [done | by rewrite lookup_insert_ne]. }
  unfold main_outcome, delete_outcome, os_remove, raise. cbn [fst].
  repeat case_match; simplify_eq; cbn; rewrite ?lookup_delete_ne by done; done.
Qed.

(** C4, as amended: the output path is the input path without its last
    four characters, followed by [_new.pdf].  For a name [stem + ext]
    with an extension of four characters it is [stem + "_new" + ".pdf"],
    which is [stem + "_new" + ext] for the extension [.pdf] itself; a
    path of fewer than four characters gives [_new.pdf].  It is the path
    the CLI tool returns, and the two programs write no other path but
    the original. *)
Theorem output_path_of_stem (stem : str) (c1 c2 c3 c4 : char) :
  new_path_of (stem ++ [c1; c2; c3; c4]) = stem ++ codes "_new" ++ codes ".pdf" /\
  new_path_of (stem ++ codes ".pdf") = stem ++ codes "_new" ++ codes ".pdf" /\
  new_path_of [] = codes "_new.pdf" /\
  new_path_of [c1] = codes "_new.pdf" /\
  new_path_of [c1; c2] = codes "_new.pdf" /\
  new_path_of [c1; c2; c3] = codes "_new.pdf" /\
  (forall w self pdf_path front pg q,
     files w !! pdf_path = Some (Document (front ++ [pg])) ->
     q <> pdf_path -> q <> new_path_of pdf_path ->
     files (process_pdf self pdf_path w).2 !! q = files w !! q) /\
  (forall w a front pg,
     files w !! a_pdf_path a = Some (Document (front ++ [pg])) ->
     (forall q, q <> a_pdf_path a -> q <> new_path_of (a_pdf_path a) ->
                files (main a w).2 !! q = files w !! q) /\
     (forall new_path,
        (replace_date_in_pdf (a_pdf_path a) (a_old_date a) (a_new_date a) w).1
          = Ret (true, new_path) ->
        new_path = Some (new_path_of (a_pdf_path a)))).
Proof.
  split_and!; [by apply new_path_of_stem | by apply new_path_of_stem | done..| |].
  - intros w self pdf_path front pg q Hf Hq Hn.
    rewrite (process_pdf_run _ _ _ _ _ Hf), files_gui_outcome.
    rewrite !bool_decide_false by done. by destruct (unwritable w _).
  - intros w a front pg Hf. split.
    + intros q. by apply (cli_writes_only_output a w front pg).
    + intros new_path.
      rewrite (replace_date_in_pdf_run _ _ _ _ _ _ Hf).
      destruct (cli_outcome _ _ _ _ _ _) as [r w'] eqn:E.
      apply cli_outcome_files in E as (ok & np & -> & _ & _ & Hnp & _).
      intros [= -> ->]. by apply Hnp.
Qed.
End OutputPath.

(** ** The batch driver *)

Section Batch.
Context `{rt : Runtime}.

Lemma dirtree_induction (P : dirtree -> Prop) :
  (forall name names subdirs, Forall P subdirs -> P (Dir name names subdirs)) ->
  forall t, P t.
Proof.
  intros H. fix IH 1. intros [name names subdirs]. apply H.
  induction subdirs as [|d subdirs IHs]; constructor; [apply IH | exact IHs].
Qed.

(** [os.walk] lists the files of the tree, each directory once. *)
Lemma walk_listed (t : dirtree) (top dir f : str) :
  (exists ds names, (dir, ds, names) ∈ walk top t /\ f ∈ names)
  <-> listed top t dir f.
Proof.
  revert top. induction t as [name names subdirs IH] using dirtree_induction.
  intros top. cbn [walk]. split.
  - intros (ds & ns & Hin & Hf). apply elem_of_cons in Hin as [E | Hin].
    + injection E as -> _ ->. by constructor.
    + apply list_elem_of_In, in_flat_map in Hin as (d & Hd & Hin).
      apply list_elem_of_In in Hd, Hin.
      eapply listed_below; [exact Hd|].
      rewrite Forall_forall in IH. apply (IH d Hd). eauto.
  - inversion 1 as [? ? ? ? ? Hf | ? ? ? ? d ? ? Hd Hl]; subst.
    + exists (map dir_name subdirs), names. split; [apply list_elem_of_here | done].
    + rewrite Forall_forall in IH. apply (IH d Hd) in Hl as (ds & ns & Hin & Hf).
      exists ds, ns. split; [|done]. apply list_elem_of_further.
      apply list_elem_of_In, in_flat_map. exists d.
      split; by apply list_elem_of_In.
Qed.

(** The paths collected are those of the listed files that pass the test. *)
Lemma collect_listed (self : thread) (t : dirtree) (p : str) :
  p ∈ collect self (walk (root_folder self) t) <->
  exists dir f, listed (root_folder self) t dir f /\
                wanted self f = true /\ p = path_join dir f.
Proof.
  unfold collect. rewrite list_elem_of_In, in_flat_map. split.
  - intros ([[dir ds] names] & Hin & Hp).
    apply in_map_iff in Hp as (f & <- & Hf).
    apply list_elem_of_In, list_elem_of_filter in Hf as [Hw Hf].
    apply list_elem_of_In in Hin.
    exists dir, f. split; [|done]. apply walk_listed. eauto.
  - intros (dir & f & Hl & Hw & ->).
    apply walk_listed in Hl as (ds & names & Hin & Hf).
    exists (dir, ds, names). split; [by apply list_elem_of_In|].
    apply in_map_iff. exists f. split; [done|].
    by apply list_elem_of_In, list_elem_of_filter.
Qed.

Lemma silent_ret {A} (a : A) : silent (ret a).
Proof. done. Qed.

Lemma silent_bind {A B} (m : M A) (k : A -> M B) :
  silent m -> (forall a, silent (k a)) -> silent (bind m k).
Proof.
  intros Hm Hk w. unfold bind. specialize (Hm w).
  destruct (m w) as [[a|e] w']; cbn in *; [|done].
  by rewrite Hk.
Qed.

Lemma silent_try_except {A} (m : M A) (h : exn -> M A) :
  silent m -> (forall e, silent (h e)) -> silent (try_except m h).
Proof.
  intros Hm Hh w. unfold try_except. specialize (Hm w).
  destruct (m w) as [[a|e] w']; cbn in *; [done|].
  by rewrite Hh.
Qed.

Lemma silent_calls :
  (forall p, silent (fitz_open p)) /\ (forall h, silent (last_page h)) /\
  (forall pg, silent (get_text pg)) /\ (forall pg s, silent (search_for pg s)) /\
  (forall pg e, silent (edit_page pg e)) /\ (forall h p, silent (save h p)) /\
  (forall h, silent (close h)) /\ (forall p, silent (os_remove p)).
Proof.
  split_and!; intros; intros w;
    unfold fitz_open, last_page, get_text, search_for, edit_page, save, close,
      os_remove, raise;
    repeat case_match; done.
Qed.

(** [process_pdf] emits no signal. *)
Lemma process_pdf_silent (self : thread) (pdf_path : str) :
  silent (process_pdf self pdf_path).
Proof.
  destruct silent_calls as (Ho & Hl & Hg & Hs & He & Hsv & Hc & Hr).
  unfold process_pdf, add_redact_annot, apply_redactions, insert_text.
  repeat (first [ apply silent_bind; [|intros ?] | apply silent_try_except; [|intros ?]
                | apply silent_ret | done | case_match ]).
Qed.

(** The loop, when no call raises: a status and a progress per file. *)
Lemma process_all_signals (self : thread) (total idx : nat) (pdf_files : list str)
    (w w' : world) :
  process_all self total idx pdf_files w = (Ret tt, w') ->
  signals w' = signals w ++ batch_signals total idx pdf_files.
Proof.
  revert idx w. induction pdf_files as [|p rest IH]; intros idx w;
    cbn [process_all batch_signals].
  - intros [= <-]. by rewrite app_nil_r.
  - unfold bind at 1, emit at 1. unfold bind at 1.
    pose proof (process_pdf_silent self p
                  (set_signals (signals w ++ [Status (status_processing ++ basename p)]) w))
      as Hs.
    destruct (process_pdf self p _) as [[[]|e] w1]; [|done].
    unfold bind at 1, emit at 1. intros Hrest%IH.
    rewrite Hrest. cbn in Hs |- *. rewrite Hs. by rewrite <- !app_assoc.
Qed.

(** The loop, when a call raises: the files before it were processed,
    its status is the last signal, and nothing follows. *)
Lemma process_all_stops (self : thread) (total idx : nat) (pdf_files : list str)
    (w w' : world) (e : exn) :
  process_all self total idx pdf_files w = (Raise e, w') ->
  exists before p after,
    pdf_files = before ++ p :: after /\
    signals w' = signals w ++ batch_signals total idx before
                   ++ [Status (status_processing ++ basename p)].
Proof.
  revert idx w. induction pdf_files as [|p rest IH]; intros idx w;
    cbn [process_all]; [done|].
  unfold bind at 1, emit at 1. unfold bind at 1.
  pose proof (process_pdf_silent self p
                (set_signals (signals w ++ [Status (status_processing ++ basename p)]) w))
    as Hs.
  destruct (process_pdf self p _) as [[[]|e'] w1].
  - unfold bind at 1, emit at 1. intros (before & q & after & -> & Hsig)%IH.
    exists (p :: before), q, after. split; [done|].
    rewrite Hsig. cbn in Hs |- *. rewrite Hs. by rewrite <- !app_assoc.
  - intros [= <- <-]. exists [], p, rest. split; [done|].
    cbn in Hs |- *. by rewrite Hs.
Qed.

End Batch.

(** * More of the two programs *)

(** ** The shape of a date and the test of a file name *)

Section Shapes.
Context `{rt : Runtime}.

Lemma match_here_shape (s : str) :
  match_here s = true <->
  exists d1 d2 s1 d3 d4 s2 d5 d6 d7 d8 rest,
    s = [d1; d2; s1; d3; d4; s2; d5; d6; d7; d8] ++ rest /\
    Forall (fun d => isdecimal d = true) [d1; d2; d3; d4; d5; d6; d7; d8] /\
    Forall (fun c => c = 46 \/ c = 47) [s1; s2].
Proof.
  unfold match_here. cbn [expand date_pattern flat_map replicate app fst snd].
  split.
  - destruct s as [|d1 [|d2 [|s1 [|d3 [|d4 [|s2 [|d5 [|d6 [|d7 [|d8 rest]]]]]]]]]];
      cbn [match_classes in_class]; rewrite ?andb_false_r; try discriminate.
    rewrite !andb_true_iff, !orb_true_iff, !bool_decide_eq_true.
    intros (? & ? & ? & ? & ? & ? & ? & ? & ? & ? & _).
    exists d1, d2, s1, d3, d4, s2, d5, d6, d7, d8, rest.
    split; [done|].
    rewrite !Forall_cons. split_and!; done.
  - intros (d1 & d2 & s1 & d3 & d4 & s2 & d5 & d6 & d7 & d8 & rest & -> & Hd & Hs).
    cbn [app match_classes in_class].
    decompose_Forall_hyps.
    rewrite !andb_true_iff, !orb_true_iff, !bool_decide_eq_true. tauto.
Qed.

(** The group of a match: digits and two separators. *)
Lemma finditer_shape (text : str) (m : re_match) :
  m ∈ finditer text ->
  exists d1 d2 s1 d3 d4 s2 d5 d6 d7 d8,
    m_group m = [d1; d2; s1; d3; d4; s2; d5; d6; d7; d8] /\
    (m_start m + 10 <= length text)%nat /\
    Forall (fun d => isdecimal d = true) [d1; d2; d3; d4; d5; d6; d7; d8] /\
    Forall (fun c => c = 46 \/ c = 47) [s1; s2].
Proof.
  intros Hm. pose proof (finditer_sound _ _ Hm) as [Hocc Hgrp].
  apply match_here_shape in Hocc
    as (d1 & d2 & s1 & d3 & d4 & s2 & d5 & d6 & d7 & d8 & rest & Hdrop & Hd & Hs).
  rewrite width_10 in Hgrp.
  exists d1, d2, s1, d3, d4, s2, d5, d6, d7, d8. split_and!; [|  | done | done].
  - by rewrite Hgrp, Hdrop.
  - apply (f_equal length) in Hdrop. rewrite length_drop, length_app in Hdrop.
    cbn in Hdrop. lia.
Qed.

(** X1. Every match that [re.finditer] reports for the date pattern is
    the ten characters of the text at its offset: two digits, a dot or a
    slash, two digits, a dot or a slash, four digits; the two separators
    need not be the same, and a later match starts after its end. *)
Theorem date_match_shape (text : str) (m : re_match) :
  m ∈ finditer text ->
  (m_start m + 10 <= length text)%nat /\
  m_group m = take 10 (drop (m_start m) text) /\
  (exists d1 d2 s1 d3 d4 s2 d5 d6 d7 d8,
     m_group m = [d1; d2; s1; d3; d4; s2; d5; d6; d7; d8] /\
     Forall (fun d => isdecimal d = true) [d1; d2; d3; d4; d5; d6; d7; d8] /\
     Forall (fun c => c = 46 \/ c = 47) [s1; s2]) /\
  (forall m', m' ∈ finditer text -> (m_start m < m_start m')%nat ->
              (m_start m + 10 <= m_start m')%nat).
Proof.
  intros Hm. pose proof (finditer_sound _ _ Hm) as [_ Hgrp].
  destruct (finditer_shape _ _ Hm)
    as (d1 & d2 & s1 & d3 & d4 & s2 & d5 & d6 & d7 & d8 & Hg & Hlen & Hd & Hs).
  rewrite width_10 in Hgrp. split_and!; [done | done | |].
  - by exists d1, d2, s1, d3, d4, s2, d5, d6, d7, d8.
  - intros m' Hm' Hlt.
    apply list_elem_of_lookup_1 in Hm as [i Hi], Hm' as [j Hj].
    destruct (decide (i < j)%nat) as [Hij|Hij].
    + pose proof (scan_increasing _ _ _ _ _ _ _ Hi Hj Hij) as H.
      by rewrite width_10 in H.
    + destruct (decide (i = j)) as [->|Hne].
      * unfold finditer in Hi, Hj. rewrite Hi in Hj. injection Hj as ->. lia.
      * assert (j < i)%nat as Hji by lia.
        pose proof (scan_increasing _ _ _ _ _ _ _ Hj Hi Hji). lia.
Qed.

Lemma startswith_spec (p s : str) :
  startswith p s = true <-> exists r, s = p ++ r.
Proof.
  revert s. induction p as [|a p IH]; intros s; cbn.
  - split; [by eexists|done].
  - destruct s as [|b s].
    + split; [done|]. by intros (r & ?).
    + case_decide as Hab.
      * subst b. rewrite IH. split.
        -- intros (r & ->). by exists r.
        -- intros (r & [= ->]). by exists r.
      * split; [done|]. intros (r & [= ? _]). done.
Qed.

Lemma endswith_spec (p s : str) :
  endswith p s = true <-> exists l, s = l ++ p.
Proof.
  unfold endswith. rewrite startswith_spec. split.
  - intros (r & Hr). exists (reverse r).
    apply (f_equal reverse) in Hr.
    by rewrite reverse_involutive, reverse_app, reverse_involutive in Hr.
  - intros (l & ->). exists (reverse l). by rewrite reverse_app.
Qed.

Lemma contains_spec (k s : str) :
  contains k s = true <-> exists a b, s = a ++ k ++ b.
Proof.
  induction s as [|c s IH]; cbn [contains].
  - rewrite orb_false_r, startswith_spec. split.
    + intros (r & Hr). by exists [], r.
    + intros (a & b & Hab). symmetry in Hab.
      apply app_eq_nil in Hab as [-> Hab]. eauto.
  - rewrite orb_true_iff, startswith_spec, IH. split.
    + intros [(r & ->) | (a & b & ->)]; [by exists [], r | by exists (c :: a), b].
    + intros ([|c' a] & b & Hab).
      * left. by exists b.
      * right. injection Hab as -> ->. by exists a, b.
Qed.

(** X2. The worker takes a file exactly when its name in lower case is
    some stem followed by [.pdf] and the keyword occurs in the name as
    it is, in one piece; the case of the keyword counts and the case of
    the extension does not. *)
Theorem wanted_iff (self : thread) (file : str) :
  wanted self file = true <->
  (exists stem, lower file = stem ++ codes ".pdf") /\
  (exists before after, file = before ++ keyword self ++ after).
Proof.
  unfold wanted. by rewrite andb_true_iff, endswith_spec, contains_spec.
Qed.
End Shapes.

(** ** Any file, any world *)

Section AnyWorld.
Context `{rt : Runtime}.

Lemma pages_cases (pages : list page) :
  pages = [] \/ exists front pg, pages = front ++ [pg].
Proof.
  induction pages as [|pg pages _] using rev_ind; [by left|].
  right. by exists pages, pg.
Qed.

(** What a path is to [fitz.open] and [doc[-1]]: a document with a last
    page, a document without pages, or nothing that opens. *)
Lemma file_cases (w : world) (path : str) :
  (exists front pg, files w !! path = Some (Document (front ++ [pg]))) \/
  files w !! path = Some (Document []) \/
  (forall pages, files w !! path <> Some (Document pages)).
Proof.
  destruct (files w !! path) as [[pages|]|] eqn:E; [|by right; right..].
  destruct (pages_cases pages) as [-> | (front & pg & ->)]; [by right; left|].
  left. by exists front, pg.
Qed.

Lemma process_pdf_not_document (self : thread) (w : world) (pdf_path : str) :
  (forall pages, files w !! pdf_path <> Some (Document pages)) ->
  process_pdf self pdf_path w = raise LibraryError pdf_path w.
Proof.
  intros Hno. unfold process_pdf, bind at 1, fitz_open.
  destruct (files w !! pdf_path) as [[pages|]|] eqn:E; [|done..].
  by destruct (Hno pages).
Qed.

Lemma replace_not_document (w : world) (pdf_path old_date new_date : str) :
  (forall pages, files w !! pdf_path <> Some (Document pages)) ->
  replace_date_in_pdf pdf_path old_date new_date w
  = failed w (exn_of LibraryError pdf_path).
Proof.
  intros Hno. unfold replace_date_in_pdf, try_except at 1, bind at 1, fitz_open.
  destruct (files w !! pdf_path) as [[pages|]|] eqn:E;
    [by destruct (Hno pages) | apply handler_run..].
Qed.

Lemma replace_no_pages (w : world) (pdf_path old_date new_date : str) :
  files w !! pdf_path = Some (Document []) ->
  replace_date_in_pdf pdf_path old_date new_date w
  = failed (cur w (doc_of pdf_path [] false)) (exn_of LibraryError pdf_path).
Proof.
  intros Hf. unfold replace_date_in_pdf, try_except at 1.
  step fitz_open_ok. unfold bind at 1, last_page. cbn [docs cur set_docs].
  rewrite list_lookup_middle by done. cbn [d_pages doc_of raise d_name].
  apply handler_run.
Qed.

(** X3. [process_pdf] returns exactly when the path is a document with
    at least one page and the output path can be written; otherwise it
    raises the error of the library and no file has changed. *)
Theorem process_pdf_returns_iff (self : thread) (w : world) (pdf_path : str) :
  ((process_pdf self pdf_path w).1 = Ret tt <->
   (exists front pg, files w !! pdf_path = Some (Document (front ++ [pg]))) /\
   unwritable w (new_path_of pdf_path) = false) /\
  (forall e, (process_pdf self pdf_path w).1 = Raise e ->
             e_kind e = LibraryError /\
             files (process_pdf self pdf_path w).2 = files w).
Proof.
  destruct (file_cases w pdf_path) as [(front & pg & Hf) | [Hf | Hf]].
  - rewrite (process_pdf_run _ _ _ _ _ Hf). unfold gui_outcome.
    destruct (unwritable w (new_path_of pdf_path)) eqn:Hu; cbn.
    + split; [split; [done | by intros [_ ?]]|]. by intros e [= <-].
    + split; [split; [eauto | done] | done].
  - rewrite (no_page_left_open _ _ _ Hf). cbn. split.
    + split; [done|]. intros [(front & pg & Hf') _]. rewrite Hf in Hf'.
      injection Hf' as Hf'. by destruct front.
    + by intros e [= <-].
  - rewrite (process_pdf_not_document _ _ _ Hf). cbn. split.
    + split; [done|]. intros [(front & pg & Hf') _]. by destruct (Hf _ Hf').
    + by intros e [= <-].
Qed.

(** What a success of [replace_date_in_pdf] needs. *)
Lemma replace_success_inv (w : world) (pdf_path old_date new_date : str)
    (new_path : option str) :
  (replace_date_in_pdf pdf_path old_date new_date w).1 = Ret (true, new_path) ->
  new_path = Some (new_path_of pdf_path) /\
  exists front pg last_match rect,
    files w !! pdf_path = Some (Document (front ++ [pg])) /\
    last (finditer (page_text pg)) = Some last_match /\
    m_group last_match = old_date /\
    last (page_search pg old_date) = Some rect /\
    unwritable w (new_path_of pdf_path) = false /\
    printable w (line_replaced old_date new_date) = true.
Proof.
  destruct (file_cases w pdf_path) as [(front & pg & Hf) | [Hf | Hf]].
  - rewrite (replace_date_in_pdf_run _ _ _ _ _ _ Hf).
    unfold cli_outcome, cli_replace.
    destruct (last (finditer (page_text pg))) as [ml|] eqn:Hl;
      [|by unfold refused, failed; destruct (printable _ _)].
    case_bool_decide as Hg;
      [|by unfold refused, failed; destruct (printable _ _)].
    destruct (last (page_search pg old_date)) as [rect|] eqn:Hr;
      [|by unfold refused, failed; destruct (printable _ _)].
    cbv zeta. destruct (unwritable w (new_path_of pdf_path)) eqn:Hu; [done|].
    destruct (printable w (line_replaced old_date new_date)) eqn:Hp; [|done].
    cbn. intros [= <-]. split; [done|]. by exists front, pg, ml, rect.
  - by rewrite (replace_no_pages _ _ _ _ Hf).
  - by rewrite (replace_not_document _ _ _ _ Hf).
Qed.

(** [replace_date_in_pdf] returns one of its two results. *)
Lemma replace_returns (w : world) (pdf_path old_date new_date : str) :
  exists w',
    replace_date_in_pdf pdf_path old_date new_date w
      = (Ret (true, Some (new_path_of pdf_path)), w') \/
    replace_date_in_pdf pdf_path old_date new_date w = (Ret (false, None), w').
Proof.
  destruct (file_cases w pdf_path) as [(front & pg & Hf) | [Hf | Hf]].
  - rewrite (replace_date_in_pdf_run _ _ _ _ _ _ Hf).
    unfold cli_outcome, cli_replace, refused, failed.
    repeat case_match; eauto.
  - rewrite (replace_no_pages _ _ _ _ Hf). unfold failed. eauto.
  - rewrite (replace_not_document _ _ _ _ Hf). unfold failed. eauto.
Qed.

(** X4. [replace_date_in_pdf] reports success exactly when the path is
    a document whose last page has a match of the date pattern, the last
    match is the old date given, the search for it returns a rectangle,
    the output path can be written and stdout can encode the line of
    success. *)
Theorem replace_succeeds_iff (w : world) (pdf_path old_date new_date : str)
    (new_path : option str) :
  (replace_date_in_pdf pdf_path old_date new_date w).1 = Ret (true, new_path) <->
  new_path = Some (new_path_of pdf_path) /\
  exists front pg last_match rect,
    files w !! pdf_path = Some (Document (front ++ [pg])) /\
    last (finditer (page_text pg)) = Some last_match /\
    m_group last_match = old_date /\
    last (page_search pg old_date) = Some rect /\
    unwritable w (new_path_of pdf_path) = false /\
    printable w (line_replaced old_date new_date) = true.
Proof.
  split; [apply replace_success_inv|].
  intros (-> & front & pg & ml & rect & Hf & Hl & Hg & Hr & Hu & Hp).
  rewrite (replace_date_in_pdf_run _ _ _ _ _ _ Hf).
  unfold cli_outcome, cli_replace. rewrite Hl, bool_decide_true by done.
  by rewrite Hr, Hu, Hp.
Qed.

Lemma line_error_prefix (w : world) (e : exn) :
  startswith (codes "ERROR: ") (line_error w e) = true.
Proof. unfold line_error. by destruct (printable w _). Qed.

Lemma failed_protocol (w : world) (e : exn) :
  exists line, failed w e = (Ret (false, None), say w line) /\
               startswith (codes "ERROR: ") line = true.
Proof. eexists. split; [done | apply line_error_prefix]. Qed.

Lemma refused_protocol (w : world) (line : str) :
  startswith (codes "ERROR: ") line = true ->
  exists line', refused w line = (Ret (false, None), say w line') /\
                startswith (codes "ERROR: ") line' = true.
Proof.
  intros Hl. unfold refused. destruct (printable w line); [by eexists|].
  apply failed_protocol.
Qed.

(** X5. [replace_date_in_pdf] never raises.  It returns [(True, path)]
    with the output path after printing two lines, the one of success
    and one that starts with [SAVED: ]; or it returns [(False, None)]
    after printing one line, which starts with [ERROR: ]. *)
Theorem replace_protocol (w : world) (pdf_path old_date new_date : str) :
  exists w',
    (replace_date_in_pdf pdf_path old_date new_date w
     = (Ret (true, Some (new_path_of pdf_path)), w') /\
     exists saved_line,
       stdout w' = stdout w ++ [line_replaced old_date new_date; saved_line] /\
       startswith (codes "SAVED: ") saved_line = true) \/
    (replace_date_in_pdf pdf_path old_date new_date w = (Ret (false, None), w') /\
     exists line,
       stdout w' = stdout w ++ [line] /\
       startswith (codes "ERROR: ") line = true).
Proof.
  assert (forall (w0 : world) line,
            stdout w0 = stdout w ->
            startswith (codes "ERROR: ") line = true ->
            exists w', refused w0 line = (Ret (false, None), w') /\
                       exists line', stdout w' = stdout w ++ [line'] /\
                                     startswith (codes "ERROR: ") line' = true)
    as Hrefused.
  { intros w0 line Hs Hl. destruct (refused_protocol w0 line Hl) as (l' & -> & ?).
    eexists. split; [done|]. exists l'. cbn. by rewrite Hs. }
  assert (forall (w0 : world) e,
            stdout w0 = stdout w ->
            exists w', failed w0 e = (Ret (false, None), w') /\
                       exists line', stdout w' = stdout w ++ [line'] /\
                                     startswith (codes "ERROR: ") line' = true)
    as Hfailed.
  { intros w0 e Hs. eexists. split; [done|]. eexists. cbn. rewrite Hs.
    split; [done | apply line_error_prefix]. }
  destruct (file_cases w pdf_path) as [(front & pg & Hf) | [Hf | Hf]].
  - rewrite (replace_date_in_pdf_run _ _ _ _ _ _ Hf).
    unfold cli_outcome, cli_replace.
    destruct (last (finditer (page_text pg))) as [ml|].
    2: { destruct (Hrefused (cur w (doc_of pdf_path (front ++ [pg]) true))
                     line_no_dates) as (w' & ? & ?); [done..|]. eauto. }
    case_bool_decide.
    2: { destruct (Hrefused (cur w (doc_of pdf_path (front ++ [pg]) true))
                     (line_mismatch old_date (m_group ml))) as (w' & ? & ?);
           [done..|]. eauto. }
    destruct (last (page_search pg old_date)) as [rect|].
    2: { destruct (Hrefused (cur w (doc_of pdf_path (front ++ [pg]) true))
                     (line_not_visual old_date)) as (w' & ? & ?); [done..|].
         eauto. }
    cbv zeta. destruct (unwritable w (new_path_of pdf_path)).
    { edestruct Hfailed as (w' & ? & ?); [|eauto]. done. }
    destruct (printable w (line_replaced old_date new_date)).
    2: { edestruct Hfailed as (w' & ? & ?); [|eauto]. done. }
    eexists. left. split; [done|]. eexists. split.
    + cbn. by rewrite <- app_assoc.
    + unfold line_saved. by destruct (printable w _).
  - rewrite (replace_no_pages _ _ _ _ Hf).
    edestruct Hfailed as (w' & ? & ?); [|eauto]. done.
  - rewrite (replace_not_document _ _ _ _ Hf).
    edestruct Hfailed as (w' & ? & ?); [|eauto]. done.
Qed.
End AnyWorld.

(** ** The process of the CLI tool *)

Section Process.
Context `{rt : Runtime}.

Lemma main_missing_run (a : args) (w : world) :
  files w !! a_pdf_path a = None ->
  main a w
  = (1%Z,
     if printable w (codes "ERROR: PDF file not found: " ++ a_pdf_path a)
     then say w (codes "ERROR: PDF file not found: " ++ a_pdf_path a)
     else w).
Proof.
  intros Hf. unfold main, main_body, bind at 1, os_path_exists.
  rewrite Hf, bool_decide_false by (by intros [? ?]). cbn [negb].
  unfold bind, print. by destruct (printable w _).
Qed.

(** X6. Where the path does not exist, [main] opens nothing and changes
    no file: it prints that the file was not found, where stdout can
    encode the path, and the process ends with status 1. *)
Theorem main_missing_file (a : args) (w : world) :
  files w !! a_pdf_path a = None ->
  (main a w).1 = 1%Z /\
  files (main a w).2 = files w /\
  docs (main a w).2 = docs w /\
  stdout (main a w).2
  = stdout w ++
      (if printable w (codes "ERROR: PDF file not found: " ++ a_pdf_path a)
       then [codes "ERROR: PDF file not found: " ++ a_pdf_path a]
       else []).
Proof.
  intros Hf. rewrite (main_missing_run a w Hf).
  destruct (printable w _); cbn; [done|]. by rewrite app_nil_r.
Qed.

(** X7. The status of the process is 0 or 1, and it is 0 only after a
    replacement: the path was a document whose last match is the old
    date given, with a rectangle, and the output path holds that
    document with the last page edited at the rectangle. *)
Theorem main_exit_status (a : args) (w : world) :
  ((main a w).1 = 0%Z \/ (main a w).1 = 1%Z) /\
  ((main a w).1 = 0%Z ->
   exists front pg last_match rect,
     files w !! a_pdf_path a = Some (Document (front ++ [pg])) /\
     last (finditer (page_text pg)) = Some last_match /\
     m_group last_match = a_old_date a /\
     last (page_search pg (a_old_date a)) = Some rect /\
     files (main a w).2 !! new_path_of (a_pdf_path a)
     = Some (Document
               (front ++ [with_edits
                            (replacement rect (cli_anchor rect) (a_new_date a))
                            pg]))).
Proof.
  destruct (files w !! a_pdf_path a) as [f|] eqn:Hf.
  2: { rewrite (main_missing_run a w Hf). split; [by right | done]. }
  destruct (replace_returns w (a_pdf_path a) (a_old_date a) (a_new_date a))
    as (w' & [Hr | Hr]).
  - rewrite (main_run a w _ _ (mk_is_Some _ _ Hf) Hr).
    pose proof Hr as Hok. apply (f_equal fst) in Hok. cbn [fst] in Hok.
    apply replace_success_inv
      in Hok as (_ & front & pg & ml & rect & Hf' & Hl & Hg & Hrect & Hu & Hp).
    rewrite (replace_date_in_pdf_run _ _ _ _ _ _ Hf') in Hr.
    unfold cli_outcome, cli_replace in Hr.
    rewrite Hl, bool_decide_true, Hrect, Hu, Hp in Hr by done.
    injection Hr as <-.
    pose proof (new_path_ne (a_pdf_path a)) as Hne.
    unfold main_outcome, delete_outcome, os_remove, raise. cbn [fst].
    split.
    + repeat case_match; simplify_eq; cbn; auto.
    + intros Hz. exists front, pg, ml, rect.
      split_and!; [congruence | done | done | done |].
      repeat case_match; simplify_eq; cbn;
        rewrite ?lookup_delete_ne by done; by rewrite lookup_insert_eq.
  - rewrite (main_run a w _ _ (mk_is_Some _ _ Hf) Hr). cbn.
    split; [by right | done].
Qed.
End Process.

(** ** The other branches of [replace_date_in_pdf] *)

Section Branches.
Context `{rt : Runtime}.

(** X8. Where the last match is the old date given and the search for
    it returns no rectangle, the CLI tool closes the document unedited,
    writes no file and returns failure; stdout gets the line that the
    date was not found visually, or, where it cannot encode that line,
    the line of the handler. *)
Theorem cli_not_visual (w : world) (pdf_path old_date new_date : str)
    (front : list page) (pg : page) (last_match : re_match) :
  files w !! pdf_path = Some (Document (front ++ [pg])) ->
  last (finditer (page_text pg)) = Some last_match ->
  m_group last_match = old_date ->
  page_search pg old_date = [] ->
  (replace_date_in_pdf pdf_path old_date new_date w).1 = Ret (false, None) /\
  files (replace_date_in_pdf pdf_path old_date new_date w).2 = files w /\
  created w (replace_date_in_pdf pdf_path old_date new_date w).2
  = Some (doc_of pdf_path (front ++ [pg]) true) /\
  stdout (replace_date_in_pdf pdf_path old_date new_date w).2
  = stdout w ++
      [if printable w (line_not_visual old_date)
       then line_not_visual old_date
       else line_error w (exn_of UnicodeEncodeError (line_not_visual old_date))].
Proof.
  intros Hf Hl Hg Hs. rewrite (replace_date_in_pdf_run _ _ _ _ _ _ Hf).
  unfold cli_outcome, cli_replace. rewrite Hl, bool_decide_true, Hs by done.
  cbn [last]. unfold refused, failed.
  change (printable (cur w _) ?l) with (printable w l).
  destruct (printable w (line_not_visual old_date)); cbn;
    (split_and!; [done | done | by apply list_lookup_middle | done]).
Qed.

(** X9. A successful replacement by the CLI tool: the document with the
    last page edited is at the output path, no other file has changed,
    the document object is closed, and the two lines are printed.  The
    second names the output path or, where stdout cannot encode it, is
    the fixed line: that changes neither the result nor the files. *)
Theorem cli_success (w : world) (pdf_path old_date new_date : str)
    (front : list page) (pg : page) (last_match : re_match) (rect : Rect) :
  files w !! pdf_path = Some (Document (front ++ [pg])) ->
  last (finditer (page_text pg)) = Some last_match ->
  m_group last_match = old_date ->
  last (page_search pg old_date) = Some rect ->
  unwritable w (new_path_of pdf_path) = false ->
  printable w (line_replaced old_date new_date) = true ->
  let pages :=
    front ++ [with_edits (replacement rect (cli_anchor rect) new_date) pg] in
  let w' := (replace_date_in_pdf pdf_path old_date new_date w).2 in
  (replace_date_in_pdf pdf_path old_date new_date w).1
    = Ret (true, Some (new_path_of pdf_path)) /\
  files w' = <[new_path_of pdf_path := Document pages]> (files w) /\
  files w' !! pdf_path = Some (Document (front ++ [pg])) /\
  created w w' = Some (doc_of pdf_path pages true) /\
  stdout w'
  = stdout w ++
      [line_replaced old_date new_date;
       if printable w (codes "SAVED: " ++ new_path_of pdf_path)
       then codes "SAVED: " ++ new_path_of pdf_path
       else codes "SAVED: [file with unicode characters]"].
Proof.
  intros Hf Hl Hg Hr Hu Hp pages w'. subst w'.
  rewrite (replace_date_in_pdf_run _ _ _ _ _ _ Hf).
  unfold cli_outcome, cli_replace. rewrite Hl, bool_decide_true, Hr by done.
  cbv zeta. rewrite Hu, Hp. cbn [fst snd edited_at].
  split_and!; [done | done | | by apply list_lookup_middle |].
  - cbn. by rewrite lookup_insert_ne by apply new_path_ne.
  - cbn. by rewrite <- app_assoc.
Qed.

(** X10. Where the replacement is made and saved and stdout cannot
    encode the line of success (the old or the new date has a character
    it lacks), the CLI tool returns failure and the process ends with
    status 1, and yet the output file is written. *)
Theorem cli_failure_after_save (a : args) (w : world)
    (front : list page) (pg : page) (last_match : re_match) (rect : Rect) :
  files w !! a_pdf_path a = Some (Document (front ++ [pg])) ->
  last (finditer (page_text pg)) = Some last_match ->
  m_group last_match = a_old_date a ->
  last (page_search pg (a_old_date a)) = Some rect ->
  unwritable w (new_path_of (a_pdf_path a)) = false ->
  printable w (line_replaced (a_old_date a) (a_new_date a)) = false ->
  (replace_date_in_pdf (a_pdf_path a) (a_old_date a) (a_new_date a) w).1
    = Ret (false, None) /\
  (main a w).1 = 1%Z /\
  files (main a w).2 !! new_path_of (a_pdf_path a)
  = Some (Document
            (front ++ [with_edits
                         (replacement rect (cli_anchor rect) (a_new_date a)) pg])) /\
  files (main a w).2 !! a_pdf_path a = Some (Document (front ++ [pg])).
Proof.
  intros Hf Hl Hg Hr Hu Hp.
  pose proof (replace_date_in_pdf_run w _ (a_old_date a) (a_new_date a) _ _ Hf) as Hrun.
  unfold cli_outcome, cli_replace in Hrun.
  rewrite Hl, bool_decide_true, Hr in Hrun by done.
  cbv zeta in Hrun. rewrite Hu, Hp in Hrun. unfold failed in Hrun.
  rewrite (main_run a w _ _ (mk_is_Some _ _ Hf) Hrun), Hrun.
  unfold main_outcome. cbn.
  split_and!; [done | done | by rewrite lookup_insert_eq |].
  by rewrite lookup_insert_ne by apply new_path_ne.
Qed.

(** X11. Where the path is not a document the library opens, the CLI
    tool creates no document object and changes no file; it prints one
    line, the error of the library or, where stdout cannot encode it,
    the fixed line, and returns failure. *)
Theorem cli_cannot_open (w : world) (pdf_path old_date new_date : str) :
  (forall pages, files w !! pdf_path <> Some (Document pages)) ->
  replace_date_in_pdf pdf_path old_date new_date w
  = (Ret (false, None),
     say w (if printable w (codes "ERROR: " ++ strerror LibraryError pdf_path)
            then codes "ERROR: " ++ strerror LibraryError pdf_path
            else codes "ERROR: [unicode encoding error]")).
Proof. intros Hno. by rewrite (replace_not_document _ _ _ _ Hno). Qed.

(** X12. The two programs edit the same rectangle: whenever the CLI
    tool, given an old date, edits the last page, the GUI worker edits
    it at the same rectangle, and the two differ in the anchor of the
    text only. *)
Theorem same_rectangle (w : world) (self : thread) (pdf_path old_date : str)
    (front : list page) (pg : page) :
  files w !! pdf_path = Some (Document (front ++ [pg])) ->
  exists d_cli d_gui es_cli es_gui,
    created w (replace_date_in_pdf pdf_path old_date (new_date self) w).2
      = Some d_cli /\
    created w (process_pdf self pdf_path w).2 = Some d_gui /\
    d_pages d_cli = front ++ [with_edits es_cli pg] /\
    d_pages d_gui = front ++ [with_edits es_gui pg] /\
    (es_cli = [] \/
     exists rect,
       es_cli = replacement rect (cli_anchor rect) (new_date self) /\
       es_gui = replacement rect (tl rect) (new_date self)).
Proof.
  intros Hf.
  eexists _, _, (edits_at (cli_site pg old_date) cli_anchor (new_date self)),
    (edits_at (gui_site pg) tl (new_date self)).
  split; [by apply cli_created|]. split; [by apply gui_created|].
  split; [cbn; by rewrite edited_at_edits|].
  split; [cbn; unfold gui_page; by rewrite edited_at_edits|].
  destruct (cli_site pg old_date) as [rect|] eqn:Hs; [|by left].
  right. exists rect. split; [done|].
  apply cli_site_Some in Hs as (ml & Hl & Hg & Hr).
  assert (gui_site pg = Some rect) as ->; [|done].
  apply gui_site_Some. exists ml. by rewrite Hg.
Qed.

(** X13. The CLI tool replaces a date only if the old date it is given
    has the shape of a date: ten characters, digits and two separators. *)
Theorem success_needs_a_date (w : world) (pdf_path old_date new_date : str)
    (new_path : option str) :
  (replace_date_in_pdf pdf_path old_date new_date w).1 = Ret (true, new_path) ->
  length old_date = 10%nat /\ match_here old_date = true.
Proof.
  intros (_ & front & pg & ml & rect & _ & Hl & <- & _)%replace_success_inv.
  apply last_Some_elem_of, finditer_shape in Hl
    as (d1 & d2 & s1 & d3 & d4 & s2 & d5 & d6 & d7 & d8 & -> & _ & Hd & Hs).
  split; [done|]. apply match_here_shape.
  exists d1, d2, s1, d3, d4, s2, d5, d6, d7, d8, []. by rewrite app_nil_r.
Qed.
End Branches.

(** ** The files of a run *)

Section Files.
Context `{rt : Runtime}.

(** What [process_pdf] does to the files, in any world. *)
Lemma process_pdf_files (self : thread) (w : world) (pdf_path : str) :
  let w' := (process_pdf self pdf_path w).2 in
  (forall q, q <> pdf_path -> q <> new_path_of pdf_path ->
             files w' !! q = files w !! q) /\
  (files w' !! pdf_path = files w !! pdf_path \/
   files w' !! pdf_path = None /\ delete_original self = true /\
   undeletable w pdf_path = false /\
   (process_pdf self pdf_path w).1 = Ret tt) /\
  ((process_pdf self pdf_path w).1 = Ret tt ->
   is_Some (files w' !! new_path_of pdf_path)) /\
  (delete_original self = false ->
   forall q, is_Some (files w !! q) -> is_Some (files w' !! q)).
Proof.
  pose proof (new_path_ne pdf_path) as Hne.
  destruct (file_cases w pdf_path) as [(front & pg & Hf) | [Hf | Hf]].
  - rewrite (process_pdf_run _ _ _ _ _ Hf). cbv zeta. split_and!.
    + intros q Hq Hn. rewrite files_gui_outcome.
      rewrite !bool_decide_false by done. by destruct (unwritable w _).
    + rewrite files_gui_outcome. unfold gui_outcome.
      destruct (unwritable w (new_path_of pdf_path)); [by left|].
      rewrite bool_decide_true by done. cbn [andb].
      destruct (delete_original self); [|left; by rewrite bool_decide_false].
      destruct (undeletable w pdf_path); cbn; [left; by rewrite bool_decide_false|].
      by right.
    + rewrite files_gui_outcome. unfold gui_outcome.
      destruct (unwritable w (new_path_of pdf_path)); [done|]. intros _.
      rewrite (bool_decide_false (new_path_of pdf_path = pdf_path)) by done.
      cbn [andb]. by rewrite bool_decide_true.
    + intros Hd q Hq. rewrite files_gui_outcome, Hd. cbn [andb].
      rewrite andb_false_r. destruct (unwritable w _); [done|].
      by case_bool_decide.
  - rewrite (no_page_left_open _ _ _ Hf). cbn. split_and!; auto. done.
  - rewrite (process_pdf_not_document _ _ _ Hf). cbn. split_and!; auto. done.
Qed.

(** X14. Neither program writes to the file it reads: after
    [process_pdf], and after [main], the input path holds what it held,
    or nothing, and nothing only where the delete flag is set and the
    replacement was made (by the GUI worker: the document was saved). *)
Theorem original_never_rewritten (w : world) :
  (forall self pdf_path,
     files (process_pdf self pdf_path w).2 !! pdf_path = files w !! pdf_path \/
     files (process_pdf self pdf_path w).2 !! pdf_path = None /\
     delete_original self = true /\
     (process_pdf self pdf_path w).1 = Ret tt) /\
  (forall a,
     files (main a w).2 !! a_pdf_path a = files w !! a_pdf_path a \/
     files (main a w).2 !! a_pdf_path a = None /\
     a_delete_original a = true /\
     (replace_date_in_pdf (a_pdf_path a) (a_old_date a) (a_new_date a) w).1
       = Ret (true, Some (new_path_of (a_pdf_path a)))).
Proof.
  split.
  - intros self pdf_path.
    destruct (process_pdf_files self w pdf_path) as (_ & [H | (? & ? & _ & ?)] & _);
      [by left | by right].
  - intros a. pose proof (new_path_ne (a_pdf_path a)) as Hne.
    destruct (files w !! a_pdf_path a) as [f|] eqn:Hf.
    2: { rewrite (main_missing_run a w Hf). left.
         destruct (printable w _); cbn; by rewrite Hf. }
    destruct (file_cases w (a_pdf_path a)) as [(front & pg & Hf') | [Hf' | Hf']].
    + pose proof (replace_date_in_pdf_run w _ (a_old_date a) (a_new_date a) _ _ Hf')
        as Hr.
      destruct (cli_outcome w (a_pdf_path a) (a_old_date a) (a_new_date a) front pg)
        as [r w'] eqn:E.
      pose proof E as E'.
      apply cli_outcome_files in E' as (ok & np & -> & Hu & _ & Hnp & Hfiles).
      rewrite (main_run a w _ _ (mk_is_Some _ _ Hf) Hr), Hr.
      assert (files w' !! a_pdf_path a = Some f) as Hsame.
      { destruct Hfiles as [-> | [pages ->]]; [done|].
        by rewrite lookup_insert_ne. }
      unfold main_outcome, delete_outcome, os_remove, raise. cbn [fst].
      destruct ok; [|left; cbn; done].
      destruct (a_delete_original a); [|left; cbn; done].
      cbn [files say set_stdout]. rewrite Hsame.
      destruct (undeletable _ _).
      * left. destruct (printable _ _); cbn; done.
      * right. cbn. rewrite lookup_delete_eq. by rewrite (Hnp eq_refl).
    + left. pose proof (replace_no_pages w _ (a_old_date a) (a_new_date a) Hf') as Hr.
      rewrite (main_run a w _ _ (mk_is_Some _ _ Hf) Hr). cbn. done.
    + left.
      pose proof (replace_not_document w _ (a_old_date a) (a_new_date a) Hf') as Hr.
      rewrite (main_run a w _ _ (mk_is_Some _ _ Hf) Hr). cbn. done.
Qed.

Lemma process_all_frame (self : thread) (total idx : nat) (pdf_files : list str)
    (w : world) (q : str) :
  (forall p, p ∈ pdf_files -> q <> p /\ q <> new_path_of p) ->
  files (process_all self total idx pdf_files w).2 !! q = files w !! q.
Proof.
  revert idx w. induction pdf_files as [|p rest IH]; intros idx w Hq;
    cbn [process_all]; [done|].
  unfold bind at 1, emit at 1. unfold bind at 1.
  set (w0 := set_signals _ w).
  destruct (Hq p) as [Hp Hn]; [by left|].
  destruct (process_pdf_files self w0 p) as (Hframe & _).
  specialize (Hframe q Hp Hn).
  destruct (process_pdf self p w0) as [[[]|e] w1]; cbn [snd] in *; [|done].
  unfold bind at 1, emit at 1. rewrite IH; [done|].
  intros p' Hp'. apply Hq. by right.
Qed.

(** X15. A run of the batch driver changes no file but the files it
    collected and their output paths, whether it returns or raises. *)
Theorem batch_touches_only_selected (self : thread) (w : world) (t : dirtree)
    (q : str) :
  dirs w !! root_folder self = Some t ->
  (forall p, p ∈ collect self (walk (root_folder self) t) ->
             q <> p /\ q <> new_path_of p) ->
  files (run self w).2 !! q = files w !! q.
Proof.
  intros Hd Hq. unfold run, bind at 1, os_walk. rewrite Hd.
  case_bool_decide; [done|]. unfold bind at 1.
  pose proof (process_all_frame self
                (length (collect self (walk (root_folder self) t))) 0
                (collect self (walk (root_folder self) t)) w q Hq) as Hfr.
  destruct (process_all self _ 0 _ w) as [[[]|e] w1]; cbn [snd] in *; done.
Qed.

Lemma process_all_outputs (self : thread) (total idx : nat) (pdf_files : list str)
    (w w' : world) :
  delete_original self = false ->
  process_all self total idx pdf_files w = (Ret tt, w') ->
  (forall p, p ∈ pdf_files -> is_Some (files w' !! new_path_of p)) /\
  (forall q, is_Some (files w !! q) -> is_Some (files w' !! q)).
Proof.
  intros Hd. revert idx w. induction pdf_files as [|p rest IH]; intros idx w;
    cbn [process_all].
  - intros [= <-]. split; [by intros p ?%elem_of_nil | done].
  - unfold bind at 1, emit at 1. unfold bind at 1.
    set (w0 := set_signals _ w).
    destruct (process_pdf_files self w0 p) as (_ & _ & Hout & Hkeep).
    destruct (process_pdf self p w0) as [[[]|e] w1]; cbn [fst snd] in *; [|done].
    unfold bind at 1, emit at 1. intros (Hrest & Hstay)%IH.
    cbn [files set_signals] in Hstay. split.
    + intros p' [-> | Hp']%elem_of_cons; [|by apply Hrest].
      apply Hstay, Hout. done.
    + intros q Hq. by apply Hstay, Hkeep.
Qed.

(** X16. Without the delete flag, a run that returns leaves an output
    file for every file it collected, and every file that was there is
    still there. *)
Theorem batch_outputs (self : thread) (w w' : world) (t : dirtree) :
  dirs w !! root_folder self = Some t ->
  delete_original self = false ->
  run self w = (Ret tt, w') ->
  (forall p, p ∈ collect self (walk (root_folder self) t) ->
             is_Some (files w' !! new_path_of p)) /\
  (forall q, is_Some (files w !! q) -> is_Some (files w' !! q)).
Proof.
  intros Hdir Hd. unfold run, bind at 1, os_walk. rewrite Hdir.
  case_bool_decide as Hlen.
  - unfold bind, emit. intros [= <-]. cbn. split; [|done].
    intros p Hp. apply length_zero_iff_nil in Hlen. rewrite Hlen in Hp.
    by apply elem_of_nil in Hp.
  - unfold bind at 1.
    destruct (process_all self _ 0 _ w) as [[[]|e] w1] eqn:E; [|done].
    apply (process_all_outputs _ _ _ _ _ _ Hd) in E as [Hout Hstay].
    unfold bind, emit. intros [= <-]. cbn. done.
Qed.

(** X17. A root folder that cannot be listed is a folder without files:
    the run emits the status of no files found, progress 0 and the end,
    and changes nothing else. *)
Theorem run_missing_root (self : thread) (w : world) :
  dirs w !! root_folder self = None ->
  run self w
  = (Ret tt,
     set_signals (signals w ++ [Status status_no_files; Progress 0; Finished]) w).
Proof.
  intros Hd. unfold run, bind at 1, os_walk. rewrite Hd. cbn [collect flat_map length].
  rewrite bool_decide_true by done. unfold bind, emit, set_signals. cbn.
  by rewrite <- !app_assoc.
Qed.
End Files.

(** ** The main window *)

Section WindowFacts.
Context `{rt : Runtime} `{tk : Toolkit}.






(** The signals of a run that returns. *)
Lemma run_returns_signals (self : thread) (w w' : world) :
  run self w = (Ret tt, w') ->
  let pdf_files :=
    match dirs w !! root_folder self with
    | Some t => collect self (walk (root_folder self) t)
    | None => []
    end in
  signals w'
  = signals w ++
      (if bool_decide (pdf_files = [])
       then [Status status_no_files; Progress 0; Finished]
       else batch_signals (length pdf_files) 0 pdf_files
              ++ [Status status_done; Finished]).
Proof.
  unfold run, bind at 1, os_walk. cbv zeta.
  set (pdf_files := collect self match dirs w !! root_folder self with
                                 | Some t => walk (root_folder self) t
                                 | None => []
                                 end).
  assert (match dirs w !! root_folder self with
          | Some t => collect self (walk (root_folder self) t)
          | None => []
          end = pdf_files) as ->.
  { unfold pdf_files. by destruct (dirs w !! root_folder self). }
  destruct pdf_files as [|p rest] eqn:E.
  - cbn [length]. rewrite !bool_decide_true by done.
    unfold bind, emit. intros [= <-]. cbn. by rewrite <- !app_assoc.
  - rewrite <- E. rewrite !bool_decide_false by (by rewrite E).
    unfold bind at 1.
    destruct (process_all self (length pdf_files) 0 pdf_files w)
      as [[[]|e] w1] eqn:Ep; [|done].
    apply process_all_signals in Ep. unfold bind, emit. intros [= <-]. cbn.
    rewrite Ep. by rewrite <- !app_assoc.
Qed.

Lemma deliver_batch (total : nat) (pdf_files : list str) (idx : nat) (self : window) :
  let self' := deliver self (batch_signals total idx pdf_files) in
  boxes self' = boxes self /\ worker self' = worker self /\
  folder self' = folder self /\
  progress self'
  = match pdf_files with
    | [] => progress self
    | _ :: _ => percent (idx + length pdf_files) total
    end.
Proof.
  revert idx self. induction pdf_files as [|p rest IH]; intros idx self; [done|].
  cbn [batch_signals deliver foldl].
  destruct (IH (S idx) (receive (receive self (Status (status_processing ++ basename p)))
                          (Progress (percent (idx + 1) total))))
    as (Hb & Hw & Hf & Hp).
  unfold deliver in *. rewrite Hb, Hw, Hf, Hp. split_and!; [done..|].
  destruct rest as [|p' rest]; cbn [length receive progress].
  - done.
  - f_equal. lia.
Qed.

(** X19. When a run returns, the window, once the signals have reached
    it in the order they were emitted, shows the status of completion
    and one dialog of completion more; a run that found no file too:
    the status of no files found is replaced by the one of completion.
    The progress is 0 for no file and the last percentage otherwise. *)
Theorem window_after_run (self : thread) (w w' : world) (win : window) :
  run self w = (Ret tt, w') ->
  let pdf_files :=
    match dirs w !! root_folder self with
    | Some t => collect self (walk (root_folder self) t)
    | None => []
    end in
  let win' := deliver win (emitted w w') in
  status win' = status_done /\
  status win' <> status_no_files /\
  boxes win' = boxes win ++ [Information text_done_title text_completed] /\
  progress win'
  = (if bool_decide (pdf_files = []) then 0%Z
     else percent (length pdf_files) (length pdf_files)) /\
  worker win' = worker win /\ folder win' = folder win.
Proof.
  intros Hrun pdf_files win'. subst win'.
  pose proof (run_returns_signals _ _ _ Hrun) as Hs. cbv zeta in Hs.
  fold pdf_files in Hs. unfold emitted. rewrite Hs, drop_app_length.
  case_bool_decide as Hnil.
  - cbn. split_and!; done.
  - unfold deliver. rewrite foldl_app. cbn [foldl receive on_finished].
    destruct (deliver_batch (length pdf_files) pdf_files 0 win)
      as (Hb & Hw & Hf & Hp).
    unfold deliver in *. cbn [status boxes progress worker folder].
    rewrite Hb, Hw, Hf, Hp. split_and!; [done..| |done|done].
    by destruct pdf_files.
Qed.
End WindowFacts.

(** ** The work of the batch driver *)

Section Driver.
Context `{rt : Runtime}.

(** The quotient of an integer by itself, as the division computes it
    before rounding: 2^53 at the exponent -53, exactly. *)
Lemma div_core_same (p : positive) :
  SpecFloat.SFdiv_core_binary 53 1024 (Zpos p) 0 (Zpos p) 0
  = (Z.shiftl 1 53, (-53)%Z, SpecFloat.loc_Exact).
Proof.
  unfold SpecFloat.SFdiv_core_binary.
  rewrite !Z.add_0_r, !Z.sub_diag.
  change (Z.min (SpecFloat.fexp 53 1024 0) 0) with (-53)%Z.
  change (0 - -53)%Z with 53%Z.
  cbv zeta. cbv iota.
  assert (Z.div_eucl (Z.shiftl (Z.pos p) 53) (Z.pos p) = (Z.shiftl 1 53, 0%Z)) as ->.
  { assert (forall x y, Z.div_eucl x y = (x / y, x mod y)%Z) as ->
      by (intros x y; unfold Z.div, Z.modulo; destruct (Z.div_eucl x y); reflexivity).
    rewrite !Z.shiftl_mul_pow2 by lia. rewrite (Z.mul_comm (Z.pos p)).
    rewrite Z.div_mul, Z.mod_mul by lia. reflexivity. }
  unfold SpecFloat.new_location, SpecFloat.new_location_even,
    SpecFloat.new_location_odd.
  cbn [Z.eqb]. destruct (Z.even _); reflexivity.
Qed.

(** [n / n] is 1.0 and [1.0 * 100] is 100.0, whatever [n]. *)
Lemma percent_all (n : nat) : n <> 0%nat -> percent n n = 100%Z.
Proof.
  destruct n as [|n]; [congruence|]. intros _. unfold percent.
  change (Z.of_nat (S n)) with (Zpos (Pos.of_succ_nat n)).
  cbn [float_of_int]. unfold SpecFloat.SFdiv.
  rewrite div_core_same. vm_compute. reflexivity.
Qed.

(** For up to 200 files the percentage is the exact one or one below
    it: all the quotients are evaluated. *)
Lemma percent_close_small (k total : nat) :
  (1 <= k <= total)%nat -> (total <= 200)%nat ->
  (exact_percent k total - 1 <= percent k total <= exact_percent k total)%Z.
Proof.
  intros Hk Ht.
  assert (forallb (fun n => forallb (fun i => percent_close i n) (seq 1 n))
            (seq 1 200) = true) as Hall by (vm_compute; reflexivity).
  rewrite List.forallb_forall in Hall.
  specialize (Hall total). rewrite List.forallb_forall in Hall.
  assert (percent_close k total = true) as Hc.
  { apply Hall; apply List.in_seq; lia. }
  unfold percent_close in Hc. apply andb_true_iff in Hc as [H0 H1]. lia.
Qed.

(** The values of the progress bar in the loop: the percentage of
    [idx + 1], [idx + 2], ... files of [total]. *)
Lemma progress_values_batch (total idx : nat) (pdf_files : list str) :
  progress_values (batch_signals total idx pdf_files)
  = map (fun k => percent k total) (seq (idx + 1) (length pdf_files)).
Proof.
  revert idx. induction pdf_files as [|p rest IH]; intros idx; [done|].
  cbn [batch_signals length seq map].
  change (progress_values (Status ?s :: Progress ?n :: ?gs))
    with (n :: progress_values gs).
  rewrite IH. by replace (S idx + 1)%nat with (S (idx + 1)) by lia.
Qed.

(** A call of [process_pdf] that returns: the path was a document with
    a last page; it was opened, saved at the output path with the last
    page edited, and closed; the original is deleted where the flag is
    set and the file can be deleted. *)
Lemma process_pdf_returned (self : thread) (w w1 : world) (p : str) :
  process_pdf self p w = (Ret tt, w1) ->
  exists front pg,
    files w !! p = Some (Document (front ++ [pg])) /\
    docs w1 = docs w ++ [doc_of p (front ++ [gui_page self pg]) true] /\
    files w1 !! new_path_of p = Some (Document (front ++ [gui_page self pg])) /\
    files w1 !! p
    = (if delete_original self && negb (undeletable w p)
       then None else Some (Document (front ++ [pg]))) /\
    undeletable w1 = undeletable w.
Proof.
  pose proof (new_path_ne p) as Hne.
  destruct (file_cases w p) as [(front & pg & Hf) | [Hf | Hf]].
  - intros Hrun. exists front, pg. split; [done|].
    pose proof (files_gui_outcome w self p (front ++ [gui_page self pg])) as Hfiles.
    rewrite (process_pdf_run _ _ _ _ _ Hf) in Hrun. rewrite Hrun in Hfiles.
    cbn [snd] in Hfiles. unfold gui_outcome in Hrun.
    destruct (unwritable w (new_path_of p)); [done|].
    injection Hrun as <-. split_and!.
    + by destruct (delete_original self && negb (undeletable w p)).
    + rewrite Hfiles. rewrite (bool_decide_false (new_path_of p = p)) by done.
      cbn [andb]. by rewrite bool_decide_true.
    + rewrite Hfiles. rewrite bool_decide_true by done. cbn [andb].
      destruct (delete_original self && negb (undeletable w p)); [done|].
      rewrite bool_decide_false by done. done.
    + by destruct (delete_original self && negb (undeletable w p)).
  - by rewrite (no_page_left_open _ _ _ Hf).
  - by rewrite (process_pdf_not_document _ _ _ Hf).
Qed.

(** The loop, when it returns, has opened the files of the list, one
    document each, in their order, and closed them. *)
Lemma process_all_opened (self : thread) (total idx : nat) (pdf_files : list str)
    (w w' : world) :
  process_all self total idx pdf_files w = (Ret tt, w') ->
  undeletable w' = undeletable w /\
  exists ds, docs w' = docs w ++ ds /\ map d_name ds = pdf_files /\
             Forall (fun d => d_closed d = true) ds.
Proof.
  revert idx w. induction pdf_files as [|p rest IH]; intros idx w;
    cbn [process_all].
  - intros [= <-]. split; [done|]. exists []. by rewrite app_nil_r.
  - unfold bind at 1, emit at 1. unfold bind at 1.
    set (w0 := set_signals _ w).
    destruct (process_pdf self p w0) as [[[]|e] w1] eqn:E; [|done].
    apply process_pdf_returned in E as (front & pg & _ & Hdocs & _ & _ & Hund).
    unfold bind at 1, emit at 1. intros (Hund' & ds & Hds & Hnames & Hclosed)%IH.
    subst w0. cbn [docs undeletable set_signals] in *. split; [congruence|].
    exists (doc_of p (front ++ [gui_page self pg]) true :: ds).
    rewrite Hds, Hdocs. split; [by rewrite <- app_assoc|].
    split; [by rewrite <- Hnames | by constructor].
Qed.

(** The loop, when it returns, on a file of the list that is apart from
    the others: the file was a document with a last page, its output
    holds the document with the last page edited, and the original is
    deleted where the flag is set and the file can be deleted. *)
Lemma process_all_apart (self : thread) (total idx : nat)
    (before after : list str) (p : str) (w w' : world) :
  process_all self total idx (before ++ p :: after) w = (Ret tt, w') ->
  (forall p', p' ∈ before ++ after -> apart p p') ->
  exists front pg,
    files w !! p = Some (Document (front ++ [pg])) /\
    files w' !! new_path_of p = Some (Document (front ++ [gui_page self pg])) /\
    files w' !! p
    = (if delete_original self && negb (undeletable w p)
       then None else Some (Document (front ++ [pg]))).
Proof.
  revert idx w. induction before as [|p0 before IH]; intros idx w;
    cbn [app process_all]; unfold bind at 1, emit at 1; unfold bind at 1;
    set (w0 := set_signals _ w);
    destruct (process_pdf self _ w0) as [[[]|e] w1] eqn:E; try done;
    unfold bind at 1, emit at 1; intros Hrun Hap.
  - apply process_pdf_returned in E as (front & pg & Hf & _ & Hout & Horig & _).
    subst w0. cbn [files undeletable set_signals] in *.
    exists front, pg. split; [done|].
    assert (forall q, q = p \/ q = new_path_of p ->
                      files w' !! q = files w1 !! q) as Hframe.
    { intros q Hq.
      pose proof (process_all_frame self total (S idx) after
                    (set_signals (signals w1 ++ [Progress (percent (idx + 1) total)]) w1)
                    q) as Hfr.
      rewrite Hrun in Hfr. apply Hfr. intros p' Hp'.
      destruct (Hap p') as (H1 & H2 & H3 & H4); [done|].
      by destruct Hq as [-> | ->]. }
    rewrite !Hframe by auto. done.
  - pose proof E as E'.
    apply process_pdf_returned in E' as (_ & _ & _ & _ & _ & _ & Hund).
    destruct (Hap p0) as (H1 & H2 & H3 & H4); [by left|].
    destruct (process_pdf_files self w0 p0) as (Hfr & _). rewrite E in Hfr.
    cbn [snd] in Hfr.
    destruct (IH _ _ Hrun) as (front & pg & Hf & Hout & Horig).
    { intros p' Hp'. apply Hap. by right. }
    subst w0. cbn [files undeletable set_signals] in *.
    exists front, pg. rewrite Hfr in Hf by done. split; [done|].
    split; [done|]. by rewrite Horig, Hund.
Qed.

(** C8. The batch driver collects the files under the root folder, at
    any depth, whose name in lower case ends in [.pdf] and whose name, as
    it is, contains the keyword, and it touches no file but these and
    their output paths.  Where there is none it emits the status of no
    files found, progress 0 and the end.  A run that returns has opened
    and closed one document for each collected file, in their order; a
    collected file that is apart from the others was a document, its
    output path holds it with the last page edited, and the original is
    deleted where the flag is set and it can be deleted.  Such a run has
    emitted for each file in turn its status and [int(k / total * 100)]
    for the [k] files processed so far, in float arithmetic: the last
    value is 100 and, for up to 200 files, each value is the percentage
    rounded down or one below it; then the status of completion, which
    is another text, and the end.  A call that raises ends the run at the status of
    its file. *)
Theorem batch_driver (self : thread) (w : world) (t : dirtree) :
  dirs w !! root_folder self = Some t ->
  let pdf_files := collect self (walk (root_folder self) t) in
  let total := length pdf_files in
  (forall p, p ∈ pdf_files <->
             exists dir f, listed (root_folder self) t dir f /\
                           endswith (codes ".pdf") (lower f) = true /\
                           contains (keyword self) f = true /\
                           p = path_join dir f) /\
  (forall q, (forall p, p ∈ pdf_files -> q <> p /\ q <> new_path_of p) ->
             files (run self w).2 !! q = files w !! q) /\
  (pdf_files = [] ->
   run self w
   = (Ret tt, set_signals
                (signals w ++ [Status status_no_files; Progress 0; Finished]) w)) /\
  (forall w', run self w = (Ret tt, w') ->
     map d_name (opened w w') = pdf_files /\
     Forall (fun d => d_closed d = true) (opened w w') /\
     (forall before p after,
        pdf_files = before ++ p :: after ->
        (forall p', p' ∈ before ++ after -> apart p p') ->
        exists front pg,
          files w !! p = Some (Document (front ++ [pg])) /\
          files w' !! new_path_of p
          = Some (Document (front ++ [gui_page self pg])) /\
          files w' !! p
          = (if delete_original self && negb (undeletable w p)
             then None else Some (Document (front ++ [pg])))) /\
     (pdf_files <> [] ->
      signals w'
      = signals w ++ batch_signals total 0 pdf_files
          ++ [Status status_done; Finished] /\
      progress_values (batch_signals total 0 pdf_files)
      = map (fun k => percent k total) (seq 1 total) /\
      percent total total = 100%Z /\
      ((total <= 200)%nat ->
       forall k, (1 <= k <= total)%nat ->
                 (exact_percent k total - 1 <= percent k total
                  <= exact_percent k total)%Z))) /\
  (forall e w', run self w = (Raise e, w') ->
                exists before p after,
                  pdf_files = before ++ p :: after /\
                  signals w'
                  = signals w ++ batch_signals total 0 before
                      ++ [Status (status_processing ++ basename p)]) /\
  status_no_files <> status_done.
Proof.
  intros Hd pdf_files total. split_and!.
  - intros p. unfold pdf_files. rewrite collect_listed. unfold wanted. split.
    + intros (dir & f & Hl & [He Hk]%andb_true_iff & ->). by exists dir, f.
    + intros (dir & f & Hl & He & Hk & ->). exists dir, f.
      by rewrite He, Hk.
  - intros q Hq. unfold run, bind at 1, os_walk. rewrite Hd.
    case_bool_decide; [done|]. unfold bind at 1.
    pose proof (process_all_frame self total 0 pdf_files w q Hq) as Hfr.
    fold pdf_files. fold total.
    destruct (process_all self total 0 pdf_files w) as [[[]|e] w1];
      cbn [snd] in *; done.
  - intros Hnil. unfold run, bind at 1, os_walk. rewrite Hd.
    fold pdf_files. rewrite Hnil. cbn [length].
    rewrite bool_decide_true by done. unfold bind, emit, set_signals. cbn.
    by rewrite <- !app_assoc.
  - intros w'. unfold run, bind at 1, os_walk. rewrite Hd.
    fold pdf_files. fold total. case_bool_decide as Hlen.
    + apply length_zero_iff_nil in Hlen. unfold bind, emit. intros [= <-].
      unfold opened. cbn [docs set_signals]. rewrite drop_all, Hlen.
      split_and!; [done | done | | done].
      intros before p after Hb. by destruct before.
    + unfold bind at 1.
      destruct (process_all self total 0 pdf_files w) as [[[]|e] w1] eqn:E;
        [|done].
      unfold bind, emit. intros [= <-]. cbn [docs files signals set_signals].
      pose proof E as (_ & ds & Hds & Hnames & Hclosed)%process_all_opened.
      unfold opened. cbn [docs set_signals]. rewrite Hds, drop_app_length.
      split_and!; [done | done | |].
      * intros before p after Hb Hap. rewrite Hb in E.
        by apply (process_all_apart _ _ _ _ _ _ _ _ E).
      * intros _. apply process_all_signals in E. rewrite E. split_and!.
        -- by rewrite <- !app_assoc.
        -- by rewrite progress_values_batch.
        -- by apply percent_all.
        -- intros Ht k Hk. by apply percent_close_small.
  - intros e w'. unfold run, bind at 1, os_walk. rewrite Hd. fold pdf_files.
    fold total. case_bool_decide; [done|]. unfold bind at 1.
    destruct (process_all self total 0 pdf_files w)
      as [[[]|e'] w1] eqn:E; [done|].
    intros [= <- <-]. by apply process_all_stops in E.
  - discriminate.
Qed.
End Driver.

(** * Runs in the concrete runtime *)

Section Runs.
#[local] Existing Instance Concrete.python.

(** Matches do not overlap: here the pattern occurs at offsets 0 and 8,
    and [re.finditer] has the first only, the scan resuming at offset 10. *)
Lemma overlapping_occurrence :
  occurs_at (codes "12.34.5678.90.1234") 0 /\
  occurs_at (codes "12.34.5678.90.1234") 8 /\
  finditer (codes "12.34.5678.90.1234")
    = [{| m_start := 0; m_group := codes "12.34.5678" |}].
Proof. split; [reflexivity|]. split; reflexivity. Qed.

Lemma last_match_is_old_date_witness :
  files Concrete.decision_world !! codes "karar.pdf"
    = Some (Document ([Concrete.cover_page] ++ [Concrete.decision_page])) /\
  occurs_at Concrete.decision_text 16 /\
  exists last_match,
    last (finditer Concrete.decision_text) = Some last_match /\
    m_group last_match = codes "15.03.2024" /\
    m_start last_match = 35%nat.
Proof.
  assert (files Concrete.decision_world !! codes "karar.pdf"
          = Some (Document ([Concrete.cover_page] ++ [Concrete.decision_page])))
    as Hf by reflexivity.
  assert (occurs_at (page_text Concrete.decision_page) 16) as Hp by reflexivity.
  split; [exact Hf|]. split; [exact Hp|].
  destruct (last_match_is_old_date Concrete.decision_world (codes "karar.pdf")
              [Concrete.cover_page] Concrete.decision_page 16 Hf Hp)
    as (ml & Hl & _).
  exists ml. split; [exact Hl|].
  assert (Some ml = Some {| m_start := 35; m_group := codes "15.03.2024" |}) as E
    by (rewrite <- Hl; reflexivity).
  injection E as ->. split; reflexivity.
Defined.

(** C2 fails for the GUI worker: on a document without a date,
    [process_pdf] returns normally and has written the output file, a
    copy of the document. *)
Lemma gui_no_date_saves_copy :
  (forall p, ~ occurs_at (page_text Concrete.blank_page) p) /\
  (process_pdf (Concrete.worker false) (codes "bos.pdf") Concrete.blank_world).1
    = Ret tt /\
  files (process_pdf (Concrete.worker false) (codes "bos.pdf") Concrete.blank_world).2
    !! codes "bos_new.pdf" = Some (Document [Concrete.blank_page]).
Proof.
  split; [by apply finditer_empty|].
  rewrite (process_pdf_run _ _ _ [] Concrete.blank_page) by reflexivity.
  split; reflexivity.
Qed.

Lemma cli_no_date_found_witness :
  (main (Concrete.command "bos.pdf" "15.03.2024" true) Concrete.blank_world).1 = 1%Z /\
  files (main (Concrete.command "bos.pdf" "15.03.2024" true) Concrete.blank_world).2
    = files Concrete.blank_world /\
  stdout (main (Concrete.command "bos.pdf" "15.03.2024" true) Concrete.blank_world).2
    = [line_no_dates; line_failed].
Proof.
  assert (files Concrete.blank_world !! a_pdf_path (Concrete.command "bos.pdf" "15.03.2024" true)
          = Some (Document ([] ++ [Concrete.blank_page]))) as Hf by reflexivity.
  assert (forall p, ~ occurs_at (page_text Concrete.blank_page) p) as Hno
    by (by apply finditer_empty).
  destruct (cli_no_date_found _ _ _ _ Hf Hno) as (_ & Hm & Hfiles & Hout).
  split; [by rewrite Hm|]. split; [exact Hfiles | exact Hout].
Defined.

Lemma cli_date_mismatch_witness :
  (main (Concrete.command "karar.pdf" "01.03.2024" false) Concrete.decision_world).1
    = 1%Z /\
  files (main (Concrete.command "karar.pdf" "01.03.2024" false) Concrete.decision_world).2
    = files Concrete.decision_world /\
  stdout (main (Concrete.command "karar.pdf" "01.03.2024" false) Concrete.decision_world).2
    = [codes "ERROR: Expected date 01.03.2024, but found 15.03.2024"; line_failed].
Proof.
  assert (files Concrete.decision_world
            !! a_pdf_path (Concrete.command "karar.pdf" "01.03.2024" false)
          = Some (Document ([Concrete.cover_page] ++ [Concrete.decision_page])))
    as Hf by reflexivity.
  assert (last (finditer (page_text Concrete.decision_page))
          = Some {| m_start := 35; m_group := codes "15.03.2024" |}) as Hl
    by reflexivity.
  assert (m_group {| m_start := 35; m_group := codes "15.03.2024" |}
          <> a_old_date (Concrete.command "karar.pdf" "01.03.2024" false)) as Hne
    by discriminate.
  destruct (cli_date_mismatch _ _ _ _ _ Hf Hl Hne) as (_ & Hs & Hfiles & _ & Hout & _).
  split; [exact Hs|]. split; [exact Hfiles|]. exact (Hout eq_refl).
Defined.

(** C4 fails for an extension in capitals: the GUI worker takes the
    file, and the output has the extension in lower case. *)
Lemma upper_case_extension_lowered :
  endswith (codes ".pdf") (lower (codes "REPORT.PDF")) = true /\
  new_path_of (codes "REPORT.PDF") = codes "REPORT_new.pdf" /\
  new_path_of (codes "REPORT.PDF") <> codes "REPORT" ++ codes "_new" ++ codes ".PDF".
Proof. split; [reflexivity|]. split; [reflexivity | discriminate]. Qed.

Lemma output_path_of_stem_witness :
  new_path_of (codes "report.pdf") = codes "report_new.pdf" /\
  new_path_of (codes "invoice.pdf") = codes "invoice_new.pdf".
Proof.
  destruct (output_path_of_stem (codes "report") 46 112 100 102) as (Hr & _).
  destruct (output_path_of_stem (codes "invoice") 46 112 100 102) as (Hi & _).
  split; [exact Hr | exact Hi].
Defined.

Lemma replacement_text_anchor_witness :
  (exists d es,
     created Concrete.decision_world
       (process_pdf (Concrete.worker false) (codes "karar.pdf")
          Concrete.decision_world).2 = Some d /\
     d_pages d = [Concrete.cover_page] ++ [with_edits es Concrete.decision_page] /\
     InsertText {| px := 300; py := 700 |}%Z (codes "20.03.2024") 12 (0, 0, 0)%Z ∈ es) /\
  (exists d es,
     created Concrete.decision_world
       (replace_date_in_pdf (codes "karar.pdf") (codes "15.03.2024")
          (codes "20.03.2024") Concrete.decision_world).2 = Some d /\
     d_pages d = [Concrete.cover_page] ++ [with_edits es Concrete.decision_page] /\
     InsertText {| px := 300; py := 717 |}%Z (codes "20.03.2024") 12 (0, 0, 0)%Z ∈ es).
Proof.
  assert (files Concrete.decision_world !! codes "karar.pdf"
          = Some (Document ([Concrete.cover_page] ++ [Concrete.decision_page])))
    as Hf by reflexivity.
  destruct (replacement_text_anchor Concrete.decision_world (codes "karar.pdf")
              [Concrete.cover_page] Concrete.decision_page Hf) as [Hgui Hcli].
  split.
  - destruct (Hgui (Concrete.worker false)) as (d & es & Hc & Hp & _ & Hin).
    exists d, es. split; [exact Hc|]. split; [exact Hp|].
    exact (Hin {| m_start := 35; m_group := codes "15.03.2024" |}
             Concrete.box_b eq_refl eq_refl).
  - destruct (Hcli (codes "15.03.2024") (codes "20.03.2024"))
      as (d & es & Hc & Hp & _ & Hin).
    exists d, es. split; [exact Hc|]. split; [exact Hp|].
    exact (Hin {| m_start := 35; m_group := codes "15.03.2024" |}
             Concrete.box_b eq_refl eq_refl eq_refl).
Defined.

(** C6 fails on a document without a date: the GUI worker processes it,
    saving the copy and deleting the original, and no date was chosen. *)
Lemma gui_processes_without_old_date :
  last (finditer (page_text Concrete.blank_page)) = None /\
  (process_pdf (Concrete.worker true) (codes "bos.pdf") Concrete.blank_world).1
    = Ret tt /\
  files (process_pdf (Concrete.worker true) (codes "bos.pdf") Concrete.blank_world).2
    !! codes "bos_new.pdf" = Some (Document [Concrete.blank_page]) /\
  files (process_pdf (Concrete.worker true) (codes "bos.pdf") Concrete.blank_world).2
    !! codes "bos.pdf" = None.
Proof.
  split; [reflexivity|].
  rewrite (process_pdf_run _ _ _ [] Concrete.blank_page) by reflexivity.
  split; [reflexivity|]. split; reflexivity.
Qed.

Lemma one_date_one_rectangle_witness :
  exists d,
    created Concrete.decision_world
      (process_pdf (Concrete.worker false) (codes "karar.pdf")
         Concrete.decision_world).2 = Some d /\
    d_pages d
    = [Concrete.cover_page;
       with_edits (replacement Concrete.box_b (tl Concrete.box_b) (codes "20.03.2024"))
         Concrete.decision_page].
Proof.
  assert (files Concrete.decision_world !! codes "karar.pdf"
          = Some (Document ([Concrete.cover_page] ++ [Concrete.decision_page])))
    as Hf by reflexivity.
  assert (occurs_at (page_text Concrete.decision_page) 35) as Hp by reflexivity.
  destruct (one_date_one_rectangle Concrete.decision_world (codes "karar.pdf")
              [Concrete.cover_page] Concrete.decision_page 35 Hf Hp)
    as (ml & Hl & Hgui & _).
  destruct (Hgui (Concrete.worker false)) as (d & es & Hc & Hpages & Hes & _).
  exists d. split; [exact Hc|]. rewrite Hpages, Hes.
  assert (Some ml = Some {| m_start := 35; m_group := codes "15.03.2024" |}) as E
    by (rewrite <- Hl; reflexivity).
  injection E as ->. reflexivity.
Defined.

(** C7 fails where the output cannot be written: [doc.save] raises, the
    GUI worker lets the exception through and the CLI tool catches it,
    and in both the document object is still open. *)
Theorem document_left_open_when_save_fails :
  (process_pdf (Concrete.worker false) (codes "karar.pdf") Concrete.locked_world).1
    = Raise (exn_of LibraryError (codes "karar_new.pdf")) /\
  d_closed <$> created Concrete.locked_world
      (process_pdf (Concrete.worker false) (codes "karar.pdf")
         Concrete.locked_world).2 = Some false /\
  (replace_date_in_pdf (codes "karar.pdf") (codes "15.03.2024")
     (codes "20.03.2024") Concrete.locked_world).1 = Ret (false, None) /\
  d_closed <$> created Concrete.locked_world
      (replace_date_in_pdf (codes "karar.pdf") (codes "15.03.2024")
         (codes "20.03.2024") Concrete.locked_world).2 = Some false.
Proof.
  assert (files Concrete.locked_world !! codes "karar.pdf"
          = Some (Document ([Concrete.cover_page] ++ [Concrete.decision_page])))
    as Hf by reflexivity.
  rewrite (process_pdf_run _ _ _ _ _ Hf).
  rewrite (replace_date_in_pdf_run _ _ _ _ _ _ Hf).
  split_and!; reflexivity.
Qed.

(** C9 fails in the CLI tool where the original cannot be deleted and
    stdout cannot encode its name: the replacement succeeds and the
    output is written, [os.remove] raises, the warning cannot be printed,
    and the process ends with status 1. *)
Theorem deletion_warning_ends_with_status_1 :
  (replace_date_in_pdf Concrete.dotted_path (codes "15.03.2024")
     (codes "20.03.2024") Concrete.dotted_world).1
    = Ret (true, Some Concrete.dotted_new_path) /\
  (os_remove Concrete.dotted_path Concrete.dotted_world).1
    = Raise (exn_of OSError Concrete.dotted_path) /\
  printable Concrete.dotted_world
    (line_warning (exn_of OSError Concrete.dotted_path)) = false /\
  (main Concrete.dotted_command Concrete.dotted_world).1 = 1%Z /\
  is_Some (files (main Concrete.dotted_command Concrete.dotted_world).2
             !! Concrete.dotted_new_path) /\
  stdout (main Concrete.dotted_command Concrete.dotted_world).2
    = [codes "SUCCESS: Date replaced 15.03.2024 -> 20.03.2024";
       codes "SAVED: [file with unicode characters]";
       codes "SUCCESS: PDF processed successfully"].
Proof.
  assert (files Concrete.dotted_world !! Concrete.dotted_path
          = Some (Document ([] ++ [Concrete.decision_page]))) as Hf by reflexivity.
  pose proof (replace_date_in_pdf_run Concrete.dotted_world _ (codes "15.03.2024")
                (codes "20.03.2024") _ _ Hf) as Hr.
  split; [by rewrite Hr|]. split; [reflexivity|]. split; [reflexivity|].
  rewrite (main_run Concrete.dotted_command Concrete.dotted_world _ _
             (mk_is_Some _ _ Hf) Hr).
  split; [reflexivity|]. split; [|reflexivity].
  eexists. reflexivity.
Qed.

Lemma gui_saves_unconditionally_witness :
  (process_pdf (Concrete.worker true) (codes "bos.pdf") Concrete.blank_world).1
    = Ret tt /\
  files (process_pdf (Concrete.worker true) (codes "bos.pdf") Concrete.blank_world).2
    !! codes "bos_new.pdf" = Some (Document [Concrete.blank_page]) /\
  files (process_pdf (Concrete.worker true) (codes "bos.pdf") Concrete.blank_world).2
    !! codes "bos.pdf" = None.
Proof.
  assert (files Concrete.blank_world !! codes "bos.pdf"
          = Some (Document ([] ++ [Concrete.blank_page]))) as Hf by reflexivity.
  destruct (gui_saves_unconditionally (Concrete.worker true) Concrete.blank_world
              (codes "bos.pdf") [] Concrete.blank_page Hf eq_refl)
    as (Hr & Hs & Hsame & _ & Hdel & _).
  split; [exact Hr|]. split.
  - etrans; [exact Hs|]. rewrite (Hsame (or_introl eq_refl)). reflexivity.
  - exact (Hdel eq_refl eq_refl).
Defined.


Lemma batch_driver_witness :
  collect (Concrete.worker false) (walk (codes "/belgeler") Concrete.folder)
    = [codes "/belgeler/karar.pdf"; codes "/belgeler/karar2.PDF";
       codes "/belgeler/eski/karar_eski.pdf"] /\
  (run (Concrete.worker false) Concrete.folder_world).1 = Ret tt /\
  signals (run (Concrete.worker false) Concrete.folder_world).2
    = [Status (status_processing ++ codes "karar.pdf"); Progress 33;
       Status (status_processing ++ codes "karar2.PDF"); Progress 66;
       Status (status_processing ++ codes "karar_eski.pdf"); Progress 100;
       Status status_done; Finished] /\
  map d_name (docs (run (Concrete.worker false) Concrete.folder_world).2)
    = [codes "/belgeler/karar.pdf"; codes "/belgeler/karar2.PDF";
       codes "/belgeler/eski/karar_eski.pdf"] /\
  files (run (Concrete.worker false) Concrete.folder_world).2
    !! codes "/belgeler/karar_new.pdf"
    = Some (Document [gui_page (Concrete.worker false) Concrete.decision_page]).
Proof.
  assert (dirs Concrete.folder_world !! root_folder (Concrete.worker false)
          = Some Concrete.folder) as Hd by (vm_compute; reflexivity).
  destruct (batch_driver (Concrete.worker false) Concrete.folder_world
              Concrete.folder Hd) as (_ & _ & _ & Hret & _).
  assert (collect (Concrete.worker false)
            (walk (root_folder (Concrete.worker false)) Concrete.folder)
          = [codes "/belgeler/karar.pdf"; codes "/belgeler/karar2.PDF";
             codes "/belgeler/eski/karar_eski.pdf"]) as Hfiles
    by (vm_compute; reflexivity).
  assert ((run (Concrete.worker false) Concrete.folder_world).1 = Ret tt) as Hrun
    by (vm_compute; reflexivity).
  split; [exact Hfiles|]. split; [exact Hrun|].
  destruct (run (Concrete.worker false) Concrete.folder_world) as [r w'] eqn:E.
  cbn [fst snd] in *. subst r.
  destruct (Hret w' eq_refl) as (Hnames & _ & Hwork & Hsig).
  rewrite Hfiles in Hnames, Hwork, Hsig.
  split; [|split; [exact Hnames|]].
  - destruct Hsig as (Hs & _); [discriminate|].
    etrans; [exact Hs|]. vm_compute. reflexivity.
  - destruct (Hwork [] (codes "/belgeler/karar.pdf")
                [codes "/belgeler/karar2.PDF"; codes "/belgeler/eski/karar_eski.pdf"]
                eq_refl) as (front & pg & Hf & Hout & _).
    { intros p' [-> | [-> | []%elem_of_nil]%elem_of_cons]%elem_of_cons;
        unfold apart; split_and!; vm_compute; discriminate. }
    assert (files Concrete.folder_world !! codes "/belgeler/karar.pdf"
            = Some (Document [Concrete.decision_page])) as Hf'
      by (vm_compute; reflexivity).
    rewrite Hf' in Hf. injection Hf as Hf.
    symmetry in Hf. apply app_singleton in Hf as [[-> [= ->]] | [_ [=]]].
    exact Hout.
Defined.

(** C8 fails at the twenty-ninth of fifty files: the progress bar gets
    57, and 29 of 50 is 58 percent.  In floats 29 / 50 is just below
    0.58 and the product just below 58. *)
Lemma progress_below_percentage :
  length (collect (Concrete.worker false) (walk (codes "/belgeler") Cases.fifty))
    = 50%nat /\
  (run (Concrete.worker false) Cases.fifty_world).1 = Ret tt /\
  progress_values (signals (run (Concrete.worker false) Cases.fifty_world).2)
    !! 28%nat = Some 57%Z /\
  exact_percent 29 50 = 58%Z /\
  percent 29 50 = 57%Z.
Proof. split_and!; vm_compute; reflexivity. Qed.

(** C3 fails where stdout cannot encode the old date given: the last
    date of the page is another one, and the line of the two dates is
    not printed; the handler prints the text of the encoding error. *)
Lemma mismatch_report_lost :
  last (finditer (page_text Concrete.decision_page))
    = Some {| m_start := 35; m_group := codes "15.03.2024" |} /\
  a_old_date Cases.indic_date_command <> codes "15.03.2024" /\
  (main Cases.indic_date_command Concrete.decision_world).1 = 1%Z /\
  stdout (main Cases.indic_date_command Concrete.decision_world).2
    = [codes "ERROR: codec can't encode characters"; line_failed] /\
  line_mismatch (a_old_date Cases.indic_date_command) (codes "15.03.2024")
    ∉ stdout (main Cases.indic_date_command Concrete.decision_world).2.
Proof.
  assert (stdout (main Cases.indic_date_command Concrete.decision_world).2
          = [codes "ERROR: codec can't encode characters"; line_failed]) as Hout
    by (vm_compute; reflexivity).
  split_and!; [reflexivity | discriminate | vm_compute; reflexivity | exact Hout |].
  rewrite Hout. intros [E | [E | []%elem_of_nil]%elem_of_cons]%elem_of_cons;
    vm_compute in E; discriminate.
Qed.
End Runs.

(** * More runs in the concrete runtime *)

Section MoreRuns.
#[local] Existing Instance Concrete.python.
#[local] Existing Instance ConcreteForm.qt.

Lemma date_match_shape_witness :
  {| m_start := 35; m_group := codes "15.03.2024" |}
    ∈ finditer Concrete.decision_text /\
  (35 + 10 <= length Concrete.decision_text)%nat /\
  codes "15.03.2024" = take 10 (drop 35 Concrete.decision_text).
Proof.
  assert (finditer Concrete.decision_text
          = [{| m_start := 16; m_group := codes "01.03.2024" |};
             {| m_start := 35; m_group := codes "15.03.2024" |}]) as Hall
    by (vm_compute; reflexivity).
  assert ({| m_start := 35; m_group := codes "15.03.2024" |}
            ∈ finditer Concrete.decision_text) as Hm
    by (rewrite Hall; apply list_elem_of_further, list_elem_of_here).
  destruct (date_match_shape _ _ Hm) as (Hlen & Hgrp & _).
  split; [exact Hm|]. split; [exact Hlen | exact Hgrp].
Defined.

Lemma main_missing_file_witness :
  (main (Concrete.command "yok.pdf" "15.03.2024" true) Concrete.blank_world).1
    = 1%Z /\
  files (main (Concrete.command "yok.pdf" "15.03.2024" true) Concrete.blank_world).2
    = files Concrete.blank_world /\
  stdout (main (Concrete.command "yok.pdf" "15.03.2024" true) Concrete.blank_world).2
    = [codes "ERROR: PDF file not found: yok.pdf"].
Proof.
  assert (files Concrete.blank_world
            !! a_pdf_path (Concrete.command "yok.pdf" "15.03.2024" true) = None)
    as Hf by reflexivity.
  destruct (main_missing_file _ _ Hf) as (Hs & Hfiles & _ & Hout).
  split; [exact Hs|]. split; [exact Hfiles | exact Hout].
Defined.

Lemma main_exit_status_witness :
  (main (Concrete.command "karar.pdf" "15.03.2024" false) Concrete.decision_world).1
    = 0%Z /\
  is_Some
    (files (main (Concrete.command "karar.pdf" "15.03.2024" false)
              Concrete.decision_world).2 !! codes "karar_new.pdf").
Proof.
  assert ((main (Concrete.command "karar.pdf" "15.03.2024" false)
             Concrete.decision_world).1 = 0%Z) as Hz by (vm_compute; reflexivity).
  split; [exact Hz|].
  destruct (main_exit_status (Concrete.command "karar.pdf" "15.03.2024" false)
              Concrete.decision_world) as (_ & Hzero).
  destruct (Hzero Hz) as (front & pg & ml & rect & _ & _ & _ & _ & Hout).
  eexists. exact Hout.
Defined.

Lemma cli_not_visual_witness :
  (replace_date_in_pdf (codes "karar.pdf") (codes "15.03.2024")
     (codes "20.03.2024") Cases.unseen_world).1 = Ret (false, None) /\
  stdout (replace_date_in_pdf (codes "karar.pdf") (codes "15.03.2024")
            (codes "20.03.2024") Cases.unseen_world).2
  = [codes "ERROR: Date 15.03.2024 not found visually on last page"].
Proof.
  assert (files Cases.unseen_world !! codes "karar.pdf"
          = Some (Document ([] ++ [Cases.unseen_page]))) as Hf by reflexivity.
  destruct (cli_not_visual Cases.unseen_world (codes "karar.pdf")
              (codes "15.03.2024") (codes "20.03.2024") [] Cases.unseen_page
              {| m_start := 35; m_group := codes "15.03.2024" |}
              Hf eq_refl eq_refl eq_refl) as (Hr & _ & _ & Hout).
  split; [exact Hr | exact Hout].
Defined.

Lemma cli_success_witness :
  (replace_date_in_pdf (codes "karar.pdf") (codes "15.03.2024")
     (codes "20.03.2024") Concrete.decision_world).1
    = Ret (true, Some (codes "karar_new.pdf")) /\
  stdout (replace_date_in_pdf (codes "karar.pdf") (codes "15.03.2024")
            (codes "20.03.2024") Concrete.decision_world).2
  = [codes "SUCCESS: Date replaced 15.03.2024 -> 20.03.2024";
     codes "SAVED: karar_new.pdf"].
Proof.
  assert (files Concrete.decision_world !! codes "karar.pdf"
          = Some (Document ([Concrete.cover_page] ++ [Concrete.decision_page])))
    as Hf by reflexivity.
  destruct (cli_success Concrete.decision_world (codes "karar.pdf")
              (codes "15.03.2024") (codes "20.03.2024") [Concrete.cover_page]
              Concrete.decision_page
              {| m_start := 35; m_group := codes "15.03.2024" |} Concrete.box_b
              Hf eq_refl eq_refl eq_refl eq_refl eq_refl)
    as (Hr & _ & _ & _ & Hout).
  split; [exact Hr | exact Hout].
Defined.

Lemma cli_failure_after_save_witness :
  (main Cases.dotted_date_command Concrete.decision_world).1 = 1%Z /\
  is_Some (files (main Cases.dotted_date_command Concrete.decision_world).2
             !! codes "karar_new.pdf").
Proof.
  assert (files Concrete.decision_world !! a_pdf_path Cases.dotted_date_command
          = Some (Document ([Concrete.cover_page] ++ [Concrete.decision_page])))
    as Hf by reflexivity.
  destruct (cli_failure_after_save Cases.dotted_date_command
              Concrete.decision_world [Concrete.cover_page] Concrete.decision_page
              {| m_start := 35; m_group := codes "15.03.2024" |} Concrete.box_b
              Hf eq_refl eq_refl eq_refl eq_refl eq_refl)
    as (_ & Hs & Hout & _).
  split; [exact Hs|]. eexists. exact Hout.
Defined.

Lemma cli_cannot_open_witness :
  replace_date_in_pdf (codes "resim.pdf") (codes "15.03.2024")
    (codes "20.03.2024") Cases.picture_world
  = (Ret (false, None),
     say Cases.picture_world (codes "ERROR: cannot process 'resim.pdf'")).
Proof.
  assert (forall pages,
            files Cases.picture_world !! codes "resim.pdf"
            <> Some (Document pages)) as Hno by (intros pages; discriminate).
  exact (cli_cannot_open Cases.picture_world (codes "resim.pdf")
           (codes "15.03.2024") (codes "20.03.2024") Hno).
Defined.

Lemma same_rectangle_witness :
  exists d_cli d_gui,
    created Concrete.decision_world
      (replace_date_in_pdf (codes "karar.pdf") (codes "15.03.2024")
         (codes "20.03.2024") Concrete.decision_world).2 = Some d_cli /\
    created Concrete.decision_world
      (process_pdf (Concrete.worker false) (codes "karar.pdf")
         Concrete.decision_world).2 = Some d_gui.
Proof.
  assert (files Concrete.decision_world !! codes "karar.pdf"
          = Some (Document ([Concrete.cover_page] ++ [Concrete.decision_page])))
    as Hf by reflexivity.
  destruct (same_rectangle Concrete.decision_world (Concrete.worker false)
              (codes "karar.pdf") (codes "15.03.2024") [Concrete.cover_page]
              Concrete.decision_page Hf)
    as (d_cli & d_gui & _ & _ & Hc & Hg & _).
  exists d_cli, d_gui. split; [exact Hc | exact Hg].
Defined.

Lemma success_needs_a_date_witness :
  (replace_date_in_pdf (codes "karar.pdf") (codes "15.03.2024")
     (codes "20.03.2024") Concrete.decision_world).1
    = Ret (true, Some (codes "karar_new.pdf")) /\
  length (codes "15.03.2024") = 10%nat /\
  match_here (codes "15.03.2024") = true.
Proof.
  assert ((replace_date_in_pdf (codes "karar.pdf") (codes "15.03.2024")
             (codes "20.03.2024") Concrete.decision_world).1
          = Ret (true, Some (codes "karar_new.pdf"))) as Hok
    by (vm_compute; reflexivity).
  split; [exact Hok|].
  exact (success_needs_a_date _ _ _ _ _ Hok).
Defined.

Lemma batch_touches_only_selected_witness :
  files (run (Concrete.worker true) Cases.archive_world).2
    !! codes "/belgeler/notlar.txt" = Some Opaque.
Proof.
  assert (dirs Cases.archive_world !! root_folder (Concrete.worker true)
          = Some Concrete.folder) as Hd by (vm_compute; reflexivity).
  assert (collect (Concrete.worker true)
            (walk (root_folder (Concrete.worker true)) Concrete.folder)
          = [codes "/belgeler/karar.pdf"; codes "/belgeler/karar2.PDF";
             codes "/belgeler/eski/karar_eski.pdf"]) as Hc
    by (vm_compute; reflexivity).
  rewrite (batch_touches_only_selected (Concrete.worker true) Cases.archive_world
             Concrete.folder (codes "/belgeler/notlar.txt") Hd).
  - vm_compute. reflexivity.
  - intros p Hp. rewrite Hc in Hp.
    apply elem_of_cons in Hp as [-> | Hp]; [split; discriminate|].
    apply elem_of_cons in Hp as [-> | Hp]; [split; discriminate|].
    apply elem_of_cons in Hp as [-> | Hp]; [split; discriminate|].
    by apply elem_of_nil in Hp.
Defined.

Lemma batch_outputs_witness :
  is_Some (files (run (Concrete.worker false) Concrete.folder_world).2
             !! codes "/belgeler/karar2_new.pdf") /\
  is_Some (files (run (Concrete.worker false) Concrete.folder_world).2
             !! codes "/belgeler/karar2.PDF").
Proof.
  assert (dirs Concrete.folder_world !! root_folder (Concrete.worker false)
          = Some Concrete.folder) as Hd by (vm_compute; reflexivity).
  assert ((run (Concrete.worker false) Concrete.folder_world).1 = Ret tt) as Hret
    by (vm_compute; reflexivity).
  destruct (run (Concrete.worker false) Concrete.folder_world) as [r w'] eqn:E.
  cbn [fst snd] in *. subst r.
  destruct (batch_outputs (Concrete.worker false) Concrete.folder_world w'
              Concrete.folder Hd eq_refl E) as [Hout Hstay].
  split.
  - apply (Hout (codes "/belgeler/karar2.PDF")).
    vm_compute. apply list_elem_of_further, list_elem_of_here.
  - apply Hstay. vm_compute. by eexists.
Defined.

Lemma run_missing_root_witness :
  signals (run (Concrete.worker false) Concrete.blank_world).2
  = [Status status_no_files; Progress 0; Finished].
Proof.
  assert (dirs Concrete.blank_world !! root_folder (Concrete.worker false) = None)
    as Hd by reflexivity.
  rewrite (run_missing_root (Concrete.worker false) Concrete.blank_world Hd).
  reflexivity.
Defined.


Lemma window_after_run_witness :
  status (deliver (init (codes "20.03.2024"))
            (emitted Concrete.blank_world
               (run (Concrete.worker false) Concrete.blank_world).2))
    = status_done /\
  boxes (deliver (init (codes "20.03.2024"))
           (emitted Concrete.blank_world
              (run (Concrete.worker false) Concrete.blank_world).2))
    = [Information text_done_title text_completed].
Proof.
  assert ((run (Concrete.worker false) Concrete.blank_world).1 = Ret tt) as Hret
    by (vm_compute; reflexivity).
  destruct (run (Concrete.worker false) Concrete.blank_world) as [r w'] eqn:E.
  cbn [fst snd] in *. subst r.
  destruct (window_after_run (Concrete.worker false) Concrete.blank_world w'
              (init (tk := ConcreteForm.qt) (codes "20.03.2024")) E)
    as (Hs & _ & Hb & _).
  split; [exact Hs | exact Hb].
Defined.
End MoreRuns.
